(** * ytdown: the per-format download loop of [download_youtube_media]

    A shallow embedding of [src/ytdown.py].  The Python dictionaries with a
    fixed set of keys are records (an optional key is an [option] field), the
    table [format_configs] is an association list searched by key, and the
    external library (yt_dlp) together with the file system is an oracle that
    threads an abstract world and may raise. *)

From Stdlib Require Import ZArith Ascii.
From stdpp Require Import base option list strings.

Open Scope string_scope.
Open Scope list_scope.

(** ** Dictionaries of the source *)

(** One entry of a ['postprocessors'] list: the key ['key'] is always
    present, ['preferredcodec'] and ['preferredquality'] only for some. *)
Record postprocessor := Postprocessor {
  pp_key : string;
  pp_preferredcodec : option string;
  pp_preferredquality : option string
}.

(** A value of the table [format_configs]. *)
Record config := Config {
  cfg_format : string;
  cfg_postprocessors : list postprocessor;
  cfg_ext : string
}.

(** The dictionary [ydl_opts] handed to [yt_dlp.YoutubeDL].  The last three
    keys are set conditionally, so they are optional here. *)
Record ydl_opts_dict := YdlOpts {
  opt_format : string;
  opt_outtmpl : string;
  opt_quiet : bool;
  opt_no_warnings : bool;
  opt_no_color : bool;
  opt_ignoreerrors : bool;
  opt_writethumbnail : option bool;
  opt_keepvideo : option bool;
  opt_postprocessors : option (list postprocessor)
}.

#[global] Instance postprocessor_eq_dec : EqDecision postprocessor.
Proof. solve_decision. Defined.
#[global] Instance config_eq_dec : EqDecision config.
Proof. solve_decision. Defined.
#[global] Instance ydl_opts_dict_eq_dec : EqDecision ydl_opts_dict.
Proof. solve_decision. Defined.

(** ** The table [format_configs] (lines 58-103) *)

Definition extract_audio (codec : string) : postprocessor :=
  {| pp_key := "FFmpegExtractAudio";
     pp_preferredcodec := Some codec;
     pp_preferredquality := None |}.

Definition format_configs : list (string * config) :=
  [ ("mp3",  {| cfg_format := "bestaudio/best";
                cfg_postprocessors := [];
                cfg_ext := "mp3" |});
    ("mp4",  {| cfg_format := "best[ext=mp4]/best";
                cfg_postprocessors := [];
                cfg_ext := "mp4" |});
    ("webm", {| cfg_format := "best[ext=webm]/best";
                cfg_postprocessors := [];
                cfg_ext := "webm" |});
    ("m4a",  {| cfg_format := "bestaudio[ext=m4a]/bestaudio";
                cfg_postprocessors := [];
                cfg_ext := "m4a" |});
    ("flac", {| cfg_format := "bestaudio/best";
                cfg_postprocessors := [extract_audio "flac"];
                cfg_ext := "flac" |});
    ("wav",  {| cfg_format := "bestaudio/best";
                cfg_postprocessors := [extract_audio "wav"];
                cfg_ext := "wav" |});
    ("ogg",  {| cfg_format := "bestaudio/best";
                cfg_postprocessors := [extract_audio "vorbis"];
                cfg_ext := "ogg" |}) ].

(** [d[k]] / [k in d] on a dictionary kept as an association list. *)
Fixpoint dict_get {V : Type} (d : list (string * V)) (k : string) : option V :=
  match d with
  | [] => None
  | (k', v) :: d' => if String.eqb k k' then Some v else dict_get d' k
  end.

(** [x in [a, b, ...]] on a list of strings. *)
Definition str_in (x : string) (l : list string) : bool :=
  existsb (String.eqb x) l.

(** The seven identifiers the table has an entry for. *)
Definition supported_formats : list string :=
  ["mp3"; "mp4"; "webm"; "m4a"; "flac"; "wav"; "ogg"].

(** ** String helpers *)

(** [posixpath.join(a, b)] for a second component [b] that does not start
    with a slash (here it always starts with a percent sign). *)
Fixpoint ends_with_slash (s : string) : bool :=
  match s with
  | EmptyString => false
  | String c EmptyString => Ascii.eqb c "/"%char
  | String _ r => ends_with_slash r
  end.

Definition path_join (a b : string) : string :=
  match a with
  | EmptyString => b
  | _ => if ends_with_slash a then a +:+ b else a +:+ "/" +:+ b
  end.

(** [s.rsplit('.', 1)[0]]: what precedes the last dot, or [s] itself when it
    has no dot.  The helper returns [None] when there is no dot. *)
Fixpoint before_last_dot (s : string) : option string :=
  match s with
  | EmptyString => None
  | String c r =>
      match before_last_dot r with
      | Some h => Some (String c h)
      | None => if Ascii.eqb c "."%char then Some EmptyString else None
      end
  end.

Definition rsplit_dot_head (s : string) : string :=
  default s (before_last_dot s).

(** Line 169: [base_filename.rsplit('.', 1)[0] + f'.{fmt}']. *)
Definition final_filename (base_filename fmt : string) : string :=
  rsplit_dot_head base_filename +:+ "." +:+ fmt.

(** ** Building the options of one format (lines 117-152) *)

Section Options.

Variables (include_thumbnail include_metadata : bool).
Variables (output_dir quality : string).
Variables (keep_original quiet : bool).

(** The guard of line 129 and the one of lines 137/182. *)
Definition audio_formats : list string := ["mp3"; "flac"; "wav"; "ogg"].
Definition thumbnail_formats : list string := ["mp3"; "flac"; "m4a"].

(** Whether the branch of lines 137-141 runs. *)
Definition embeds_thumbnail (fmt : string) : bool :=
  str_in fmt audio_formats && (include_thumbnail && str_in fmt thumbnail_formats).

(** The local list [postprocessors] when line 151 is reached. *)
Definition postprocessors (fmt : string) (cfg : config) : list postprocessor :=
  let pps := cfg_postprocessors cfg in
  if str_in fmt audio_formats then
    let pps :=
      if String.eqb fmt "mp3" then
        pps ++ [ {| pp_key := "FFmpegExtractAudio";
                    pp_preferredcodec := Some fmt;
                    pp_preferredquality := Some quality |} ]
      else pps in
    let pps :=
      if include_thumbnail && str_in fmt thumbnail_formats then
        pps ++ [ {| pp_key := "EmbedThumbnail";
                    pp_preferredcodec := None;
                    pp_preferredquality := None |} ]
      else pps in
    let pps :=
      if include_metadata then
        pps ++ [ {| pp_key := "FFmpegMetadata";
                    pp_preferredcodec := None;
                    pp_preferredquality := None |} ]
      else pps in
    pps
  else pps.

(** The dictionary [ydl_opts] when the [try] of line 154 is entered. *)
Definition ydl_opts (fmt : string) (cfg : config) : ydl_opts_dict :=
  let pps := postprocessors fmt cfg in
  {| opt_format := cfg_format cfg;
     opt_outtmpl := path_join output_dir ("%(title)s_" +:+ fmt +:+ ".%(ext)s");
     opt_quiet := quiet;
     opt_no_warnings := quiet;
     opt_no_color := true;
     opt_ignoreerrors := false;
     opt_writethumbnail :=
       if embeds_thumbnail fmt then Some true else None;
     opt_keepvideo := if keep_original then Some true else None;
     opt_postprocessors :=
       match pps with [] => None | _ => Some pps end |}.

End Options.

(** ** The outside world: yt_dlp, the file system and float arithmetic *)

(** A call either returns a value or raises an [Exception] whose [str] is
    [msg]. *)
Inductive outcome (A : Type) : Type :=
  | Returns (a : A)
  | Raises (msg : string).
Arguments Returns {A} a.
Arguments Raises {A} msg.

(** What the program takes from its environment.  [os_makedirs] and the four
    calls into yt_dlp may change the world (network, disk) and may raise.
    - [YoutubeDL opts] is the constructor together with entering the [with]
      block;
    - [ydl_exit] is the cleanup run when the [with] block is left; it is
      taken not to raise;
    - [os_stat p w] is the size in bytes of the file at [p], if there is one:
      [os.path.exists] and [os.path.getsize] both read it;
    - [size_mb b] is [round(b / (1024 * 1024), 2)] on Python floats, which is
      left abstract. *)
Record External := {
  world : Type;
  info_dict : Type;
  float : Type;
  size_mb : Z -> float;
  os_makedirs : string -> world -> outcome unit * world;
  os_stat : string -> world -> option Z;
  YoutubeDL : ydl_opts_dict -> world -> outcome unit * world;
  ydl_extract_info :
    ydl_opts_dict -> string -> world -> outcome (option info_dict) * world;
  ydl_download : ydl_opts_dict -> list string -> world -> outcome unit * world;
  ydl_prepare_filename :
    ydl_opts_dict -> info_dict -> world -> outcome string * world;
  ydl_exit : ydl_opts_dict -> world -> world
}.

(** The calls into yt_dlp, in the order they are made. *)
Inductive call : Type :=
  | CallYoutubeDL (opts : ydl_opts_dict)
  | CallExtractInfo (url : string)
  | CallDownload (urls : list string)
  | CallPrepareFilename.

#[global] Instance call_eq_dec : EqDecision call.
Proof. solve_decision. Defined.

(** An entry of [results['downloads']] (lines 178-185). *)
Record download_entry (E : External) := DownloadEntry {
  dl_format : string;
  dl_filename : string;
  dl_size_mb : float E;
  dl_with_thumbnail : bool;
  dl_with_metadata : bool;
  dl_success : bool
}.
Arguments DownloadEntry {E}.
Arguments dl_format {E}.
Arguments dl_filename {E}.
Arguments dl_size_mb {E}.
Arguments dl_with_thumbnail {E}.
Arguments dl_with_metadata {E}.
Arguments dl_success {E}.

(** The dictionary [results] (lines 105-110). *)
Record results_dict (E : External) := ResultsDict {
  res_url : string;
  res_formats_requested : list string;
  res_downloads : list (download_entry E);
  res_errors : list string
}.
Arguments ResultsDict {E}.
Arguments res_url {E}.
Arguments res_formats_requested {E}.
Arguments res_downloads {E}.
Arguments res_errors {E}.

(** What the loop threads: the dictionary [results], the calls made so far
    and the world. *)
Record state (E : External) := State {
  results : results_dict E;
  calls : list call;
  env : world E
}.
Arguments State {E}.
Arguments results {E}.
Arguments calls {E}.
Arguments env {E}.

(** ** A state-and-exception monad for the body of the [try] *)

Module TryMonad.
Section Ops.
Context {E : External}.

Definition M (A : Type) : Type := state E -> outcome A * state E.

Definition ret {A} (a : A) : M A := fun s => (Returns a, s).

Definition raise {A} (msg : string) : M A := fun s => (Raises msg, s).

Definition bind {A B} (m : M A) (k : A -> M B) : M B := fun s =>
  match m s with
  | (Returns a, s') => k a s'
  | (Raises msg, s') => (Raises msg, s')
  end.

(** A call into the library: logged, then answered by the environment. *)
Definition extern {A} (c : call) (f : world E -> outcome A * world E) : M A :=
  fun s =>
    let (r, w) := f (env s) in
    (r, {| results := results s; calls := calls s ++ [c]; env := w |}).

(** Reading the file system. *)
Definition stat (path : string) : M (option Z) := fun s =>
  (Returns (os_stat E path (env s)), s).

(** [results['downloads'].append(d)] and [results['errors'].append(msg)]. *)
Definition append_download (d : download_entry E) : M unit := fun s =>
  let r := results s in
  (Returns tt,
   {| results := {| res_url := res_url r;
                    res_formats_requested := res_formats_requested r;
                    res_downloads := res_downloads r ++ [d];
                    res_errors := res_errors r |};
      calls := calls s; env := env s |}).

Definition append_error (msg : string) : M unit := fun s =>
  let r := results s in
  (Returns tt,
   {| results := {| res_url := res_url r;
                    res_formats_requested := res_formats_requested r;
                    res_downloads := res_downloads r;
                    res_errors := res_errors r ++ [msg] |};
      calls := calls s; env := env s |}).

(** Leaving a [with] block: the cleanup runs whether or not the block
    raised, and the outcome of the block is kept. *)
Definition finally {A} (cleanup : world E -> world E) (m : M A) : M A :=
  fun s =>
    let (r, s') := m s in
    (r, {| results := results s'; calls := calls s'; env := cleanup (env s') |}).

End Ops.

Notation "'do' x <- c ;; k" := (bind c (fun x => k))
(at level 10, x name, c at level 60, k at level 200, only parsing).

End TryMonad.

(** ** [download_youtube_media] (lines 5-211) *)

(** The parameters of the function; [formats] is [None] when the caller
    leaves it out. *)
Record args := Args {
  url : string;
  formats : option (list string);
  include_thumbnail : bool;
  include_metadata : bool;
  output_dir : string;
  quality : string;
  keep_original : bool;
  quiet : bool
}.

(** The options built for [fmt] under the arguments [a]. *)
Definition ydl_opts_of (a : args) (fmt : string) (cfg : config) : ydl_opts_dict :=
  ydl_opts (include_thumbnail a) (include_metadata a) (output_dir a)
           (quality a) (keep_original a) (quiet a) fmt cfg.

Section Program.
Context {E : External}.
Import TryMonad.

(** The entry appended at lines 178-185. *)
Definition success_entry (a : args) (fmt final : string) (bytes : Z)
  : download_entry E :=
  {| dl_format := fmt;
     dl_filename := final;
     dl_size_mb := size_mb E bytes;
     dl_with_thumbnail :=
       if str_in fmt thumbnail_formats then include_thumbnail a else false;
     dl_with_metadata := include_metadata a;
     dl_success := true |}.

(** The body of the [try] (lines 155-189).  Printing is left out, except
    that [info.get] raises when [extract_info] returned [None]. *)
Definition try_body (a : args) (fmt : string) (opts : ydl_opts_dict) : M unit :=
  do _ <- extern (CallYoutubeDL opts) (YoutubeDL E opts) ;;
  finally (ydl_exit E opts) (
    do info <- extern (CallExtractInfo (url a))
                   (ydl_extract_info E opts (url a)) ;;
    do info <- match info with
            | Some i => ret i
            | None => raise "'NoneType' object has no attribute 'get'"
            end ;;
    do _ <- extern (CallDownload [url a]) (ydl_download E opts [url a]) ;;
    do base_filename <- extern CallPrepareFilename
                            (ydl_prepare_filename E opts info) ;;
    let final := final_filename base_filename fmt in
    do st <- stat final ;;
    match st with
    | Some bytes => append_download (success_entry a fmt final bytes)
    | None => append_error ("File not found after download: " +:+ final)
    end).

(** One iteration of the loop (lines 112-194). *)
Definition process_format (a : args) (fmt : string) (s : state E) : state E :=
  match dict_get format_configs fmt with
  | None => snd (append_error ("Unsupported format: " +:+ fmt) s)
  | Some cfg =>
      match try_body a fmt (ydl_opts_of a fmt cfg) s with
      | (Returns _, s') => s'
      | (Raises e, s') =>
          snd (append_error ("Error downloading " +:+ fmt +:+ ": " +:+ e) s')
      end
  end.

(** [for fmt in fmts: ...] *)
Definition for_formats (a : args) (fmts : list string) (s : state E) : state E :=
  fold_left (fun s fmt => process_format a fmt s) fmts s.

(** The list the loop runs over (lines 53-54). *)
Definition requested (a : args) : list string :=
  default ["mp3"] (formats a).

(** The state when the loop is entered (lines 105-110). *)
Definition initial_state (a : args) (w : world E) : state E :=
  {| results := {| res_url := url a;
                   res_formats_requested := requested a;
                   res_downloads := [];
                   res_errors := [] |};
     calls := [];
     env := w |}.

(** The whole function: the returned dictionary (or the exception of
    [os.makedirs], which is outside any [try]), the calls made into yt_dlp
    and the world left behind. *)
Definition download_youtube_media (a : args) (w : world E)
  : outcome (results_dict E) * list call * world E :=
  match os_makedirs E (output_dir a) w with
  | (Raises msg, w') => (Raises msg, [], w')
  | (Returns _, w') =>
      let s := for_formats a (requested a) (initial_state a w') in
      (Returns (results s), calls s, env s)
  end.

End Program.

(** ** Reading the options and the trace *)

(** The steps of the ['postprocessors'] list of [opts] (none when the key is
    absent) and whether one of them has the key [key]. *)
Definition steps (opts : ydl_opts_dict) : list postprocessor :=
  default [] (opt_postprocessors opts).

Definition steps_with_key (key : string) (opts : ydl_opts_dict) : list postprocessor :=
  filter (fun p => pp_key p = key) (steps opts).

Definition has_step (key : string) (opts : ydl_opts_dict) : bool :=
  existsb (fun p => String.eqb (pp_key p) key) (steps opts).

(** The option dictionaries handed to [yt_dlp.YoutubeDL], in order. *)
Definition handed_opts (tr : list call) : list ydl_opts_dict :=
  omap (fun c => match c with CallYoutubeDL o => Some o | _ => None end) tr.

(** How many calls of a trace satisfy [p]. *)
Definition is_YoutubeDL (c : call) : bool :=
  match c with CallYoutubeDL _ => true | _ => false end.

Definition is_download (c : call) : bool :=
  match c with CallDownload _ => true | _ => false end.

Definition count_calls (p : call -> bool) (tr : list call) : nat :=
  length (List.filter p tr).

(** The requested formats the table has an entry for, in order. *)
Definition supported_requested (a : args) : list string :=
  filter (fun fmt => fmt ∈ supported_formats) (requested a).

(** The calls one format may give rise to: none for a format outside the
    table; otherwise one [YoutubeDL] built from the options of that format,
    followed by the calls of lines 160-168 up to the first that raises. *)
Definition one_session (a : args) (fmt : string) (seg : list call) : Prop :=
  (fmt ∈ supported_formats ->
     exists cfg rest,
       dict_get format_configs fmt = Some cfg /\
       seg = CallYoutubeDL (ydl_opts_of a fmt cfg) :: rest /\
       rest `prefix_of`
         [CallExtractInfo (url a); CallDownload [url a]; CallPrepareFilename])
  /\ (fmt ∉ supported_formats -> seg = []).

(** Two argument records that differ at most in [quality]. *)
Definition same_but_quality (a1 a2 : args) : Prop :=
  url a1 = url a2 /\ formats a1 = formats a2 /\
  include_thumbnail a1 = include_thumbnail a2 /\
  include_metadata a1 = include_metadata a2 /\
  output_dir a1 = output_dir a2 /\
  keep_original a1 = keep_original a2 /\ quiet a1 = quiet a2.

(** ** Predicates used in the statements *)

Section Outcomes.
Context {E : External}.

(** An entry that lines 178-185 can append for [fmt]. *)
Definition entry_for (a : args) (fmt : string) (d : download_entry E) : Prop :=
  exists base_filename bytes,
    d = success_entry a fmt (final_filename base_filename fmt) bytes.

(** [fails a fmt opts w e]: from the world [w], the [try] block for [fmt]
    ends with the error string [e], because a call of the session raises
    (or [extract_info] answers [None] and [info.get] raises), or because
    the expected file is missing after the download. *)
Inductive fails (a : args) (fmt : string) (opts : ydl_opts_dict) (w : world E)
  : string -> Prop :=
  | fails_YoutubeDL msg w1 :
      YoutubeDL E opts w = (Raises msg, w1) ->
      fails a fmt opts w ("Error downloading " +:+ fmt +:+ ": " +:+ msg)
  | fails_extract_info u1 msg w1 w2 :
      YoutubeDL E opts w = (Returns u1, w1) ->
      ydl_extract_info E opts (url a) w1 = (Raises msg, w2) ->
      fails a fmt opts w ("Error downloading " +:+ fmt +:+ ": " +:+ msg)
  | fails_info_none u1 w1 w2 :
      YoutubeDL E opts w = (Returns u1, w1) ->
      ydl_extract_info E opts (url a) w1 = (Returns None, w2) ->
      fails a fmt opts w
        ("Error downloading " +:+ fmt +:+ ": "
           +:+ "'NoneType' object has no attribute 'get'")
  | fails_download u1 info msg w1 w2 w3 :
      YoutubeDL E opts w = (Returns u1, w1) ->
      ydl_extract_info E opts (url a) w1 = (Returns (Some info), w2) ->
      ydl_download E opts [url a] w2 = (Raises msg, w3) ->
      fails a fmt opts w ("Error downloading " +:+ fmt +:+ ": " +:+ msg)
  | fails_prepare_filename u1 u2 info msg w1 w2 w3 w4 :
      YoutubeDL E opts w = (Returns u1, w1) ->
      ydl_extract_info E opts (url a) w1 = (Returns (Some info), w2) ->
      ydl_download E opts [url a] w2 = (Returns u2, w3) ->
      ydl_prepare_filename E opts info w3 = (Raises msg, w4) ->
      fails a fmt opts w ("Error downloading " +:+ fmt +:+ ": " +:+ msg)
  | fails_file_missing u1 u2 info base_filename w1 w2 w3 w4 :
      YoutubeDL E opts w = (Returns u1, w1) ->
      ydl_extract_info E opts (url a) w1 = (Returns (Some info), w2) ->
      ydl_download E opts [url a] w2 = (Returns u2, w3) ->
      ydl_prepare_filename E opts info w3 = (Returns base_filename, w4) ->
      os_stat E (final_filename base_filename fmt) w4 = None ->
      fails a fmt opts w
        ("File not found after download: "
           +:+ final_filename base_filename fmt).

(** [delivers a fmt opts w d]: from the world [w], the four calls of the
    session for [fmt] return, the expected file is on disk, and [d] is the
    entry of lines 178-185 for it: the format, the path of line 169, the
    size of that file, the two flags and [success]. *)
Inductive delivers (a : args) (fmt : string) (opts : ydl_opts_dict)
    (w : world E) : download_entry E -> Prop :=
  | delivers_file u1 u2 info base_filename bytes w1 w2 w3 w4 :
      YoutubeDL E opts w = (Returns u1, w1) ->
      ydl_extract_info E opts (url a) w1 = (Returns (Some info), w2) ->
      ydl_download E opts [url a] w2 = (Returns u2, w3) ->
      ydl_prepare_filename E opts info w3 = (Returns base_filename, w4) ->
      os_stat E (final_filename base_filename fmt) w4 = Some bytes ->
      delivers a fmt opts w
        {| dl_format := fmt;
           dl_filename := final_filename base_filename fmt;
           dl_size_mb := size_mb E bytes;
           dl_with_thumbnail :=
             if str_in fmt ["mp3"; "flac"; "m4a"]
             then include_thumbnail a else false;
           dl_with_metadata := include_metadata a;
           dl_success := true |}.

End Outcomes.

(** ** A small concrete environment, used to run the model *)

Module Demo.

(** The extension of the file a download leaves, read off the options. *)
Definition ext_of (opts : ydl_opts_dict) : string :=
  match opt_postprocessors opts with
  | Some (p :: _) =>
      match pp_preferredcodec p with
      | Some c => if String.eqb c "vorbis" then "ogg" else c
      | None => "bin"
      end
  | _ =>
      if String.eqb (opt_format opts) "best[ext=mp4]/best" then "mp4"
      else if String.eqb (opt_format opts) "best[ext=webm]/best" then "webm"
      else "m4a"
  end.

Definition file_of (opts : ydl_opts_dict) : string :=
  rsplit_dot_head (opt_outtmpl opts) +:+ "." +:+ ext_of opts.

(** The world is the list of files on disk with their sizes.  The URL
    [""] cannot be resolved, the URL ["gone"] downloads nothing, any other
    URL leaves a file of 3 MiB; sizes are kept in hundredths of a MiB. *)
Definition library : External :=
  {| world := list (string * Z);
     info_dict := string;
     float := Z;
     size_mb := fun b => ((b * 100 + 524288) / 1048576)%Z;
     os_makedirs := fun _ w => (Returns tt, w);
     os_stat := fun p w => dict_get w p;
     YoutubeDL := fun _ w => (Returns tt, w);
     ydl_extract_info := fun _ u w =>
       if String.eqb u "" then (Raises "ERROR: unable to resolve", w)
       else (Returns (Some u), w);
     ydl_download := fun opts us w =>
       if str_in "gone" us then (Returns tt, w)
       else (Returns tt, (file_of opts, 3145728%Z) :: w);
     ydl_prepare_filename := fun opts _ w => (Returns (opt_outtmpl opts), w);
     ydl_exit := fun _ w => w |}.

Definition arguments (u : string) (fmts : list string) (thumb meta : bool)
  : args :=
  {| url := u; formats := Some fmts;
     include_thumbnail := thumb; include_metadata := meta;
     output_dir := "downloads"; quality := "192";
     keep_original := false; quiet := false |}.

(** A call on an empty disk. *)
Definition run (u : string) (fmts : list string) (thumb meta : bool) :=
  download_youtube_media (E := library) (arguments u fmts thumb meta) [].

(** The ['downloads'] of the returned dictionary and the option
    dictionaries handed over during the call. *)
Definition downloads (u : string) (fmts : list string) (thumb meta : bool)
  : list (download_entry library) :=
  match fst (fst (run u fmts thumb meta)) with
  | Returns r => res_downloads r
  | Raises _ => []
  end.

Definition handed (u : string) (fmts : list string) (thumb meta : bool)
  : list ydl_opts_dict :=
  handed_opts (snd (fst (run u fmts thumb meta))).

End Demo.

(** Inputs at which the theorems below are instantiated. *)
Module Sample.

Definition a : args := Demo.arguments "v" ["mp3"; "avi"; "mp4"] true true.
Definition a_unresolved : args := Demo.arguments "" ["mp3"; "mp4"] false false.
Definition a_320 : args :=
  {| url := "v"; formats := Some ["mp3"; "avi"; "mp4"];
     include_thumbnail := true; include_metadata := true;
     output_dir := "downloads"; quality := "320";
     keep_original := false; quiet := false |}.

Definition mp3_config : config :=
  {| cfg_format := "bestaudio/best"; cfg_postprocessors := []; cfg_ext := "mp3" |}.

Definition s0 : state Demo.library :=
  initial_state (E := Demo.library) a [].
Definition s0_unresolved : state Demo.library :=
  initial_state (E := Demo.library) a_unresolved [].

End Sample.

(** ** Outcome of each requested format *)

(** Whether [s] has a dot, the separator of [rsplit('.', 1)]. *)
Fixpoint has_dot (s : string) : bool :=
  match s with
  | EmptyString => false
  | String c r => Ascii.eqb c "."%char || has_dot r
  end.

Section PerFormat.
Context {E : External}.

(** What one requested format leaves in the returned dictionary: an entry
    of ['downloads'] ([inl]) or a string of ['errors'] ([inr]), the latter
    in one of the three shapes of lines 114, 187 and 192. *)
Definition outcome_for (a : args) (fmt : string)
    (o : download_entry E + string) : Prop :=
  match o with
  | inl d => fmt ∈ supported_formats /\ entry_for a fmt d
  | inr e =>
      ((fmt ∉ supported_formats) /\ e = "Unsupported format: " +:+ fmt) \/
      (fmt ∈ supported_formats /\
       ((exists msg, e = "Error downloading " +:+ fmt +:+ ": " +:+ msg) \/
        (exists base_filename,
            e = "File not found after download: "
                  +:+ final_filename base_filename fmt)))
  end.

Definition entries_of (os : list (download_entry E + string))
  : list (download_entry E) :=
  omap (fun o => match o with inl d => Some d | inr _ => None end) os.

Definition errors_of (os : list (download_entry E + string)) : list string :=
  omap (fun o => match o with inl _ => None | inr e => Some e end) os.

End PerFormat.

(** The same call with another list of formats. *)
Definition with_formats (a : args) (l : list string) : args :=
  {| url := url a;
     formats := Some l;
     include_thumbnail := include_thumbnail a;
     include_metadata := include_metadata a;
     output_dir := output_dir a;
     quality := quality a;
     keep_original := keep_original a;
     quiet := quiet a |}.

(** The error strings of the formats of [l], were none of them in the
    table. *)
Definition unsupported_errors (l : list string) : list string :=
  map (fun fmt => "Unsupported format: " +:+ fmt) l.

(** ** The convenience functions (lines 213-257) *)

(** The keyword arguments [download_multiple_formats] can pass on: the
    parameters of [download_youtube_media] it does not bind itself.  A field
    is [None] when the keyword is left out. *)
Record kwargs := Kwargs {
  kw_include_thumbnail : option bool;
  kw_include_metadata : option bool;
  kw_quality : option string;
  kw_keep_original : option bool;
  kw_quiet : option bool
}.

Section Convenience.
Context {E : External}.

(** An argument of type [option] is [None] when the caller leaves it out;
    the defaults are those of the signatures. *)
Definition download_as_mp3 (url_ : string)
    (include_thumbnail_ include_metadata_ : option bool)
    (quality_ output_dir_ : option string) (w : world E)
  : outcome (results_dict E) * list call * world E :=
  download_youtube_media
    {| url := url_;
       formats := Some ["mp3"];
       include_thumbnail := default true include_thumbnail_;
       include_metadata := default true include_metadata_;
       output_dir := default "downloads" output_dir_;
       quality := default "192" quality_;
       keep_original := false;
       quiet := false |} w.

Definition download_as_mp4 (url_ : string) (output_dir_ : option string)
    (quiet_ : option bool) (w : world E)
  : outcome (results_dict E) * list call * world E :=
  download_youtube_media
    {| url := url_;
       formats := Some ["mp4"];
       include_thumbnail := false;
       include_metadata := false;
       output_dir := default "downloads" output_dir_;
       quality := "192";
       keep_original := false;
       quiet := default true quiet_ |} w.

Definition download_multiple_formats (url_ : string) (formats_ : list string)
    (output_dir_ : option string) (kw : kwargs) (w : world E)
  : outcome (results_dict E) * list call * world E :=
  download_youtube_media
    {| url := url_;
       formats := Some formats_;
       include_thumbnail := default false (kw_include_thumbnail kw);
       include_metadata := default false (kw_include_metadata kw);
       output_dir := default "downloads" output_dir_;
       quality := default "192" (kw_quality kw);
       keep_original := default false (kw_keep_original kw);
       quiet := default false (kw_quiet kw) |} w.

End Convenience.

(** ** The command line (src/main.py) *)

(** The namespace [parser.parse_args()] returns (lines 12-70). *)
Record namespace := Namespace {
  ns_url : string;
  ns_formats : list string;
  ns_include_thumbnail : bool;
  ns_include_metadata : bool;
  ns_quality : string;
  ns_output_dir : string;
  ns_keep_original : bool;
  ns_quiet : bool
}.

(** The [choices] of [--formats] and of [--quality]. *)
Definition format_choices : list string :=
  ["mp3"; "mp4"; "webm"; "m4a"; "flac"; "wav"; "ogg"].

Definition quality_choices : list string :=
  ["64"; "128"; "192"; "256"; "320"].

(** What the declarations of the parser let through: [nargs='+'] gives at
    least one format, and every format and the quality are among their
    [choices].  Parsing itself is argparse's. *)
Definition accepted (ns : namespace) : bool :=
  negb (match ns_formats ns with [] => true | _ => false end)
  && forallb (fun fmt => str_in fmt format_choices) (ns_formats ns)
  && str_in (ns_quality ns) quality_choices.

(** The keyword arguments of the call at lines 85-94. *)
Definition args_of (ns : namespace) : args :=
  {| url := ns_url ns;
     formats := Some (ns_formats ns);
     include_thumbnail := ns_include_thumbnail ns;
     include_metadata := ns_include_metadata ns;
     output_dir := ns_output_dir ns;
     quality := ns_quality ns;
     keep_original := ns_keep_original ns;
     quiet := ns_quiet ns |}.

(** The two places where [main] calls [sys.exit(1)] (lines 108 and 112). *)
Inductive exit_branch : Type :=
  | ExitErrors
  | ExitNothingDownloaded.

(** How [main] ends: it returns [result], leaves through [sys.exit], or lets
    the exception of an [os.makedirs] through. *)
Inductive main_outcome (E : External) : Type :=
  | Completed (result : results_dict E)
  | SysExit (status : Z) (branch : exit_branch)
  | Propagates (msg : string).
Arguments Completed {E} result.
Arguments SysExit {E} status branch.
Arguments Propagates {E} msg.

Section Main.
Context {E : External}.

(** [main] from the parsed namespace on (lines 72-115); printing is left
    out. *)
Definition main (ns : namespace) (w : world E)
  : main_outcome E * list call * world E :=
  match os_makedirs E (ns_output_dir ns) w with
  | (Raises msg, w1) => (Propagates msg, [], w1)
  | (Returns _, w1) =>
      match download_youtube_media (args_of ns) w1 with
      | (Raises msg, tr, w2) => (Propagates msg, tr, w2)
      | (Returns result, tr, w2) =>
          match res_errors result with
          | _ :: _ => (SysExit 1 ExitErrors, tr, w2)
          | [] =>
              match res_downloads result with
              | [] => (SysExit 1 ExitNothingDownloaded, tr, w2)
              | _ :: _ => (Completed result, tr, w2)
              end
          end
      end
  end.

End Main.

(** Further inputs at which theorems are instantiated. *)
Module SampleCalls.

Definition ns : namespace :=
  {| ns_url := "v"; ns_formats := ["mp3"; "mp4"];
     ns_include_thumbnail := false; ns_include_metadata := true;
     ns_quality := "192"; ns_output_dir := "downloads";
     ns_keep_original := false; ns_quiet := false |}.

Definition ns_unresolved : namespace :=
  {| ns_url := ""; ns_formats := ["flac"];
     ns_include_thumbnail := true; ns_include_metadata := false;
     ns_quality := "320"; ns_output_dir := "audio";
     ns_keep_original := true; ns_quiet := true |}.

Definition a_foreign : args := Demo.arguments "v" ["avi"; "MP3"] true true.

Definition a_default : args :=
  {| url := "v"; formats := None;
     include_thumbnail := false; include_metadata := false;
     output_dir := "downloads"; quality := "192";
     keep_original := false; quiet := false |}.

Definition flac_config : config :=
  {| cfg_format := "bestaudio/best";
     cfg_postprocessors := [extract_audio "flac"];
     cfg_ext := "flac" |}.

Definition m4a_config : config :=
  {| cfg_format := "bestaudio[ext=m4a]/bestaudio";
     cfg_postprocessors := [];
     cfg_ext := "m4a" |}.

Definition no_keywords : kwargs :=
  {| kw_include_thumbnail := None; kw_include_metadata := None;
     kw_quality := Some "256"; kw_keep_original := None;
     kw_quiet := Some true |}.

End SampleCalls.

(** ** The model on small inputs *)

Example ydl_opts_mp3 :
  ydl_opts true true "downloads" "192" false false "mp3"
    {| cfg_format := "bestaudio/best"; cfg_postprocessors := []; cfg_ext := "mp3" |}
  = {| opt_format := "bestaudio/best";
       opt_outtmpl := "downloads/%(title)s_mp3.%(ext)s";
       opt_quiet := false; opt_no_warnings := false;
       opt_no_color := true; opt_ignoreerrors := false;
       opt_writethumbnail := Some true; opt_keepvideo := None;
       opt_postprocessors := Some
         [ {| pp_key := "FFmpegExtractAudio"; pp_preferredcodec := Some "mp3";
              pp_preferredquality := Some "192" |};
           {| pp_key := "EmbedThumbnail"; pp_preferredcodec := None;
              pp_preferredquality := None |};
           {| pp_key := "FFmpegMetadata"; pp_preferredcodec := None;
              pp_preferredquality := None |} ] |}.
Proof. reflexivity. Qed.

Example final_filename_ex :
  final_filename "downloads/A.B_mp3.webm" "mp3" = "downloads/A.B_mp3.mp3"
  /\ final_filename "nodot" "wav" = "nodot.wav".
Proof. split; reflexivity. Qed.

Example run_mixed :
  fst (fst (Demo.run "v" ["mp3"; "avi"; "m4a"] false true))
  = Returns
      (ResultsDict (E := Demo.library) "v" ["mp3"; "avi"; "m4a"]
         [ DownloadEntry (E := Demo.library)
             "mp3" "downloads/%(title)s_mp3.mp3" 300%Z false true true;
           DownloadEntry (E := Demo.library)
             "m4a" "downloads/%(title)s_m4a.m4a" 300%Z false true true ]
         ["Unsupported format: avi"]).
Proof. reflexivity. Qed.

Example run_unresolved :
  fst (fst (Demo.run "" ["flac"; "mp4"] false false))
  = Returns
      (ResultsDict (E := Demo.library) "" ["flac"; "mp4"] []
         ["Error downloading flac: ERROR: unable to resolve";
          "Error downloading mp4: ERROR: unable to resolve"])
  /\ map is_download (snd (fst (Demo.run "" ["flac"; "mp4"] false false)))
     = [false; false; false; false].
Proof. split; reflexivity. Qed.

Example run_gone :
  fst (fst (Demo.run "gone" ["wav"] false false))
  = Returns
      (ResultsDict (E := Demo.library) "gone" ["wav"] []
         ["File not found after download: downloads/%(title)s_wav.wav"]).
Proof. reflexivity. Qed.

(** ** Facts about the table *)

Lemma dict_get_elem_of {V : Type} (d : list (string * V)) k v :
  dict_get d k = Some v -> (k, v) ∈ d.
Proof.
  induction d as [|[k' v'] d IH]; simpl; [discriminate|].
  destruct (String.eqb_spec k k') as [->|Hne].
  - intros [= ->]. apply list_elem_of_here.
  - intros H. apply list_elem_of_further, IH, H.
Qed.

Lemma str_in_elem_of x l : str_in x l = true <-> x ∈ l.
Proof.
  unfold str_in. rewrite existsb_exists. split.
  - intros (y & Hy & Heq). apply String.eqb_eq in Heq. subst.
    by apply list_elem_of_In.
  - intros H. exists x. split; [by apply list_elem_of_In | apply String.eqb_refl].
Qed.

Lemma supported_formats_keys : map fst format_configs = supported_formats.
Proof. reflexivity. Qed.

Lemma dict_get_supported fmt :
  is_Some (dict_get format_configs fmt) <-> fmt ∈ supported_formats.
Proof.
  split.
  - intros [cfg H]. apply dict_get_elem_of in H.
    rewrite <- supported_formats_keys.
    apply (list_elem_of_fmap_2 fst) in H. exact H.
  - intros H. apply str_in_elem_of in H. revert H.
    unfold str_in, supported_formats, format_configs. simpl.
    repeat (destruct (String.eqb fmt _); [intros _; eexists; reflexivity|]).
    discriminate.
Qed.

Lemma dict_get_unsupported fmt :
  dict_get format_configs fmt = None <-> fmt ∉ supported_formats.
Proof.
  rewrite <- dict_get_supported, eq_None_not_Some. reflexivity.
Qed.

(** ** One iteration of the loop *)

(** Unfold the body of the [try] down to the calls into the environment. *)
Ltac unfold_body :=
  unfold process_format, try_body, TryMonad.bind, TryMonad.extern,
    TryMonad.finally, TryMonad.stat, TryMonad.append_download,
    TryMonad.append_error, TryMonad.ret, TryMonad.raise.

(** Run the body by cases on what each call answers. *)
Ltac run_body := unfold_body; simpl; repeat (case_match; simplify_eq/=).

(** Run the body along calls whose answers are hypotheses. *)
Ltac run_body_with_answers :=
  unfold_body; simpl;
  repeat match goal with
         | H : _ = (_, _) |- _ => rewrite H; clear H; simpl
         | H : _ = Some _ |- _ => rewrite H; clear H; simpl
         | H : _ = None |- _ => rewrite H; clear H; simpl
         end.

Section Step.
Context {E : External}.
Import TryMonad.

(** What an iteration does to the state: [url] and [formats_requested]
    stay, one entry is appended to exactly one of the two lists, and the
    calls made form one session. *)
Lemma process_format_effect a fmt (s : state E) :
  exists seg ds es,
    res_url (results (process_format a fmt s)) = res_url (results s) /\
    res_formats_requested (results (process_format a fmt s))
      = res_formats_requested (results s) /\
    res_downloads (results (process_format a fmt s))
      = res_downloads (results s) ++ ds /\
    res_errors (results (process_format a fmt s))
      = res_errors (results s) ++ es /\
    calls (process_format a fmt s) = calls s ++ seg /\
    one_session a fmt seg /\
    length ds + length es = 1 /\
    Forall (entry_for a fmt) ds.
Proof.
  destruct (dict_get format_configs fmt) as [cfg|] eqn:Hcfg.
  - assert (Hs : fmt ∈ supported_formats)
      by (apply dict_get_supported; eauto).
    assert (Hone : forall rest,
               rest `prefix_of`
                 [CallExtractInfo (url a); CallDownload [url a];
                  CallPrepareFilename] ->
               one_session a fmt (CallYoutubeDL (ydl_opts_of a fmt cfg) :: rest)).
    { intros rest Hrest. split; [|done]. intros _. eauto. }
    unfold process_format. rewrite Hcfg. clear Hcfg.
    set (opts := ydl_opts_of a fmt cfg) in *. clearbody opts.
    run_body; rewrite <- ?app_assoc; simpl;
      (eexists _, _, _; split_and!;
       [reflexivity | reflexivity
       | first [reflexivity | symmetry; apply app_nil_r]
       | first [reflexivity | symmetry; apply app_nil_r]
       | reflexivity
       | apply Hone
       | reflexivity
       | ]);
      first
        [ by (eexists; reflexivity)
        | by apply Forall_nil
        | by (apply Forall_cons; split;
              [eexists _, _; reflexivity | apply Forall_nil]) ].
  - assert (Hs : fmt ∉ supported_formats) by by apply dict_get_unsupported.
    unfold process_format. rewrite Hcfg. simpl.
    exists [], [], ["Unsupported format: " +:+ fmt].
    rewrite !app_nil_r. split_and!; try done.
Qed.

End Step.

(** ** The whole loop *)

Section Loop.
Context {E : External}.

Lemma for_formats_cons a fmt l (s : state E) :
  for_formats a (fmt :: l) s = for_formats a l (process_format a fmt s).
Proof. reflexivity. Qed.

Lemma for_formats_app a l1 l2 (s : state E) :
  for_formats a (l1 ++ l2) s = for_formats a l2 (for_formats a l1 s).
Proof. apply fold_left_app. Qed.

(** The invariant of the loop, stated for a run over [l] from any state:
    the two scalar fields stay, both lists grow at the end, every format
    gets its session and its one entry, and the new entries of
    ['downloads'] belong to a subsequence [fs] of [l]. *)
Lemma for_formats_effect a l (s : state E) :
  exists segs fs ds es,
    res_url (results (for_formats a l s)) = res_url (results s) /\
    res_formats_requested (results (for_formats a l s))
      = res_formats_requested (results s) /\
    res_downloads (results (for_formats a l s))
      = res_downloads (results s) ++ ds /\
    res_errors (results (for_formats a l s))
      = res_errors (results s) ++ es /\
    calls (for_formats a l s) = calls s ++ concat segs /\
    Forall2 (one_session a) l segs /\
    length ds + length es = length l /\
    fs `sublist_of` l /\
    Forall2 (entry_for a) fs ds.
Proof.
  revert s. induction l as [|fmt l IH]; intros s.
  - exists [], [], [], []. simpl. rewrite !app_nil_r.
    split_and!; try done; constructor.
  - rewrite for_formats_cons.
    destruct (process_format_effect a fmt s)
      as (seg & ds1 & es1 & Hu1 & Hf1 & Hd1 & He1 & Hc1 & Hs1 & Hl1 & Hentry1).
    destruct (IH (process_format a fmt s))
      as (segs & fs & ds & es & Hu & Hf & Hd & He & Hc & Hs & Hl & Hsub & Hentry).
    exists (seg :: segs), (if ds1 is [] then fs else fmt :: fs),
      (ds1 ++ ds), (es1 ++ es).
    rewrite Hu, Hf, Hd, He, Hc, Hu1, Hf1, Hd1, He1, Hc1.
    simpl. rewrite !app_assoc.
    split_and!; try done.
    + by constructor.
    + rewrite !length_app. simpl. lia.
    + destruct ds1; [by apply sublist_cons | by apply sublist_skip].
    + destruct ds1 as [|d [|d' ds1]]; simpl in *; [done| |lia].
      constructor; [|done]. by inversion Hentry1.
Qed.

(** A session builds [YoutubeDL] once and downloads at most once. *)
Lemma one_session_counts a fmt seg :
  one_session a fmt seg ->
  count_calls is_YoutubeDL seg
  = (if str_in fmt supported_formats then 1 else 0) /\
  count_calls is_download seg <= 1.
Proof.
  intros [Hin Hout].
  destruct (str_in fmt supported_formats) eqn:Hs.
  - apply str_in_elem_of in Hs.
    destruct (Hin Hs) as (cfg & rest & _ & -> & [k Hk]).
    destruct rest as [|c1 [|c2 [|c3 [|c4 rest]]]]; simplify_eq/=;
      unfold count_calls; simpl; lia.
  - assert (Hn : fmt ∉ supported_formats).
    { intros H. apply str_in_elem_of in H. congruence. }
    rewrite (Hout Hn). unfold count_calls. simpl. lia.
Qed.

(** The option dictionaries of a trace made of sessions. *)
Lemma handed_opts_sessions a l segs :
  Forall2 (one_session a) l segs ->
  Forall2 (fun fmt o =>
             exists cfg, dict_get format_configs fmt = Some cfg /\
                         o = ydl_opts_of a fmt cfg)
          (filter (fun fmt => fmt ∈ supported_formats) l)
          (handed_opts (concat segs)).
Proof.
  unfold handed_opts.
  induction 1 as [|fmt seg l segs [Hin Hout] _ IH]; simpl; [constructor|].
  rewrite omap_app.
  destruct (decide (fmt ∈ supported_formats)) as [Hs|Hs].
  - rewrite filter_cons_True by done.
    destruct (Hin Hs) as (cfg & rest & Hcfg & -> & [k Hk]).
    assert (Hrest : omap (fun c => match c with
                                   | CallYoutubeDL o => Some o
                                   | _ => None
                                   end) rest = []).
    { destruct rest as [|c1 [|c2 [|c3 [|c4 rest]]]];
        simplify_eq/=; reflexivity. }
    cbn [omap list_omap app]. rewrite Hrest. simpl.
    constructor; [eauto | exact IH].
  - rewrite filter_cons_False by done. rewrite (Hout Hs). exact IH.
Qed.

(** The function returns whenever the output directory can be made. *)
Lemma download_youtube_media_returns a (w w0 : world E) u :
  os_makedirs E (output_dir a) w = (Returns u, w0) ->
  download_youtube_media a w
  = (Returns (results (for_formats a (requested a) (initial_state a w0))),
     calls (for_formats a (requested a) (initial_state a w0)),
     env (for_formats a (requested a) (initial_state a w0))).
Proof. intros H. unfold download_youtube_media. rewrite H. reflexivity. Qed.

(** The option dictionaries a returning call hands over. *)
Lemma handed_opts_of_run a (w w0 : world E) u :
  os_makedirs E (output_dir a) w = (Returns u, w0) ->
  exists tr,
    snd (fst (download_youtube_media a w)) = tr /\
    Forall2 (fun fmt o =>
               exists cfg, dict_get format_configs fmt = Some cfg /\
                           o = ydl_opts_of a fmt cfg)
            (supported_requested a) (handed_opts tr).
Proof.
  intros Hmk. rewrite (download_youtube_media_returns _ _ _ _ Hmk). simpl.
  destruct (for_formats_effect a (requested a) (initial_state a w0))
    as (segs & fs & ds & es & _ & _ & _ & _ & Hc & Hs & _).
  simpl in Hc. eexists. split; [reflexivity|].
  rewrite Hc. by apply handed_opts_sessions.
Qed.

End Loop.

(** ** Failure of one format *)

Section Failure.
Context {E : External}.

(** A failed format leaves ['downloads'] alone, appends its one error and
    makes one session. *)
Lemma process_format_fails a fmt cfg (s : state E) e :
  dict_get format_configs fmt = Some cfg ->
  fails a fmt (ydl_opts_of a fmt cfg) (env s) e ->
  res_downloads (results (process_format a fmt s)) = res_downloads (results s) /\
  res_errors (results (process_format a fmt s)) = res_errors (results s) ++ [e] /\
  exists rest,
    calls (process_format a fmt s)
    = calls s ++ CallYoutubeDL (ydl_opts_of a fmt cfg) :: rest /\
    rest `prefix_of`
      [CallExtractInfo (url a); CallDownload [url a]; CallPrepareFilename].
Proof.
  intros Hcfg Hfails. unfold process_format. rewrite Hcfg. clear Hcfg.
  set (opts := ydl_opts_of a fmt cfg) in *. clearbody opts.
  destruct Hfails; run_body_with_answers; rewrite <- ?app_assoc; simpl;
    (split_and!; [reflexivity | reflexivity |]);
    eexists; (split; [reflexivity | eexists; reflexivity]).
Qed.

(** X21.  When [download] is reached: it is called once if [YoutubeDL] and
    [extract_info] answer (with an [info] that is not [None]), and not at
    all if one of them raises. *)
Lemma download_called_iff_info a fmt cfg (s : state E) :
  dict_get format_configs fmt = Some cfg ->
  exists seg,
    calls (process_format a fmt s) = calls s ++ seg /\
    count_calls is_download seg
    = match YoutubeDL E (ydl_opts_of a fmt cfg) (env s) with
      | (Returns _, w1) =>
          match ydl_extract_info E (ydl_opts_of a fmt cfg) (url a) w1 with
          | (Returns (Some _), _) => 1
          | _ => 0
          end
      | (Raises _, _) => 0
      end.
Proof.
  intros Hcfg. unfold process_format. rewrite Hcfg. clear Hcfg.
  set (opts := ydl_opts_of a fmt cfg) in *. clearbody opts.
  run_body; rewrite <- ?app_assoc; simpl;
    (eexists; split; [reflexivity | reflexivity]).
Qed.

(** X20.  The failures listed in [fails] are all there are: an iteration on a
    supported format either fails in one of these ways or appends a success
    entry. *)
Lemma succeeds_or_fails a fmt cfg (s : state E) :
  dict_get format_configs fmt = Some cfg ->
  (exists e, fails a fmt (ydl_opts_of a fmt cfg) (env s) e) \/
  (exists d,
      entry_for a fmt d /\
      res_downloads (results (process_format a fmt s))
      = res_downloads (results s) ++ [d] /\
      res_errors (results (process_format a fmt s)) = res_errors (results s)).
Proof.
  intros Hcfg. unfold process_format. rewrite Hcfg. clear Hcfg.
  set (opts := ydl_opts_of a fmt cfg) in *. clearbody opts.
  destruct (YoutubeDL E opts (env s)) as [[u1|msg] w1] eqn:H1;
    [|left; eexists; by eapply fails_YoutubeDL].
  destruct (ydl_extract_info E opts (url a) w1) as [[[info|]|msg] w2] eqn:H2;
    [ | left; eexists; by eapply fails_info_none
      | left; eexists; by eapply fails_extract_info ].
  destruct (ydl_download E opts [url a] w2) as [[u2|msg] w3] eqn:H3;
    [|left; eexists; by eapply fails_download].
  destruct (ydl_prepare_filename E opts info w3) as [[base|msg] w4] eqn:H4;
    [|left; eexists; by eapply fails_prepare_filename].
  destruct (os_stat E (final_filename base fmt) w4) as [bytes|] eqn:H5;
    [|left; eexists; by eapply fails_file_missing].
  right. exists (success_entry a fmt (final_filename base fmt) bytes).
  split; [by eexists _, _|].
  run_body_with_answers. split; reflexivity.
Qed.

(** An iteration on a supported format appends either one error of these
    shapes or one entry. *)
Lemma succeeds_or_fails_shape a fmt cfg (s : state E) :
  dict_get format_configs fmt = Some cfg ->
  (exists e,
      ((exists msg, e = "Error downloading " +:+ fmt +:+ ": " +:+ msg) \/
       (exists base_filename,
           e = "File not found after download: "
                 +:+ final_filename base_filename fmt)) /\
      res_downloads (results (process_format a fmt s))
      = res_downloads (results s) /\
      res_errors (results (process_format a fmt s))
      = res_errors (results s) ++ [e]) \/
  (exists d,
      entry_for a fmt d /\
      res_downloads (results (process_format a fmt s))
      = res_downloads (results s) ++ [d] /\
      res_errors (results (process_format a fmt s)) = res_errors (results s)).
Proof.
  intros Hcfg. unfold process_format. rewrite Hcfg. clear Hcfg.
  set (opts := ydl_opts_of a fmt cfg) in *. clearbody opts.
  run_body;
    first
      [ right; eexists; split; [by eexists _, _|]; split; reflexivity
      | left; eexists; (split; [|split; reflexivity]);
        first [left; eexists; reflexivity | right; eexists; reflexivity] ].
Qed.

End Failure.

(** ** Facts about strings *)

Lemma string_app_cons (c : ascii) (s t : string) :
  String c s +:+ t = String c (s +:+ t).
Proof. reflexivity. Qed.

Lemma string_app_assoc (s1 s2 s3 : string) :
  (s1 +:+ s2) +:+ s3 = s1 +:+ (s2 +:+ s3).
Proof.
  induction s1 as [|c s1 IH]; [done|].
  rewrite !string_app_cons. by f_equal.
Qed.

Lemma string_length_app (s1 s2 : string) :
  String.length (s1 +:+ s2) = String.length s1 + String.length s2.
Proof.
  induction s1 as [|c s1 IH]; [done|].
  rewrite string_app_cons. simpl. by f_equal.
Qed.

Lemma string_app_inj_l (s1 s2 t : string) :
  s1 +:+ t = s2 +:+ t -> s1 = s2.
Proof.
  revert s2. induction s1 as [|c s1 IH]; intros [|c' s2] H.
  - done.
  - apply (f_equal String.length) in H.
    rewrite !string_length_app in H. simpl in H. lia.
  - apply (f_equal String.length) in H.
    rewrite !string_length_app in H. simpl in H. lia.
  - rewrite !string_app_cons in H. injection H as -> H. f_equal. by apply IH.
Qed.

Lemma before_last_dot_None (s : string) :
  before_last_dot s = None <-> has_dot s = false.
Proof.
  induction s as [|c s IH]; simpl; [done|].
  destruct (before_last_dot s) as [h|].
  - destruct IH as [_ IH]. split; [done|].
    intros H. apply orb_false_iff in H as [_ H]. by apply IH in H.
  - destruct IH as [IH _]. rewrite (IH eq_refl), orb_false_r.
    destruct (Ascii.eqb c "."); done.
Qed.

Lemma before_last_dot_app (stem ext : string) :
  has_dot ext = false ->
  before_last_dot (stem +:+ "." +:+ ext) = Some stem.
Proof.
  intros Hext. apply before_last_dot_None in Hext.
  induction stem as [|c stem IH].
  - change ("" +:+ "." +:+ ext) with (String "." ext). simpl. by rewrite Hext.
  - rewrite string_app_cons. simpl. by rewrite IH.
Qed.

(** ** Each format against the answers of the environment *)

Section Answers.
Context {E : External}.
Import TryMonad.

(** How often [download] is called in an iteration on a supported format. *)
Lemma download_count_of_step a fmt cfg (s : state E) :
  dict_get format_configs fmt = Some cfg ->
  exists seg,
    calls (process_format a fmt s) = calls s ++ seg /\
    count_calls is_download seg
    = match YoutubeDL E (ydl_opts_of a fmt cfg) (env s) with
      | (Returns _, w1) =>
          match ydl_extract_info E (ydl_opts_of a fmt cfg) (url a) w1 with
          | (Returns (Some _), _) => 1
          | _ => 0
          end
      | (Raises _, _) => 0
      end.
Proof.
  intros Hcfg. unfold process_format. rewrite Hcfg. clear Hcfg.
  set (opts := ydl_opts_of a fmt cfg) in *. clearbody opts.
  run_body; rewrite <- ?app_assoc; simpl;
    (eexists; split; [reflexivity | reflexivity]).
Qed.

(** The calls of an iteration: one session, with [download] counted. *)
Lemma process_format_session a fmt (s : state E) :
  exists seg,
    calls (process_format a fmt s) = calls s ++ seg /\
    one_session a fmt seg /\
    forall cfg,
      dict_get format_configs fmt = Some cfg ->
      count_calls is_YoutubeDL seg = 1 /\
      count_calls is_download seg
      = match YoutubeDL E (ydl_opts_of a fmt cfg) (env s) with
        | (Returns _, w1) =>
            match ydl_extract_info E (ydl_opts_of a fmt cfg) (url a) w1 with
            | (Returns (Some _), _) => 1
            | _ => 0
            end
        | (Raises _, _) => 0
        end.
Proof.
  destruct (process_format_effect a fmt s)
    as (seg & ds & es & _ & _ & _ & _ & Hc & Hone & _).
  exists seg. split; [done|]. split; [done|].
  intros cfg Hcfg.
  destruct (download_count_of_step a fmt cfg s Hcfg) as (seg' & Hc' & Hcount).
  rewrite Hc in Hc'. apply app_inv_head in Hc'. subst seg'.
  split; [|done].
  destruct (one_session_counts a fmt seg Hone) as [Hy _].
  assert (Hs : str_in fmt supported_formats = true).
  { apply str_in_elem_of, dict_get_supported. eauto. }
  by rewrite Hs in Hy.
Qed.

(** The trace of the loop, segment by segment; the world an iteration
    starts from is the one the loop over the formats before it leaves. *)
Lemma for_formats_segments a l (s : state E) :
  exists segs,
    calls (for_formats a l s) = calls s ++ concat segs /\
    Forall2 (one_session a) l segs /\
    forall i fmt cfg seg,
      l !! i = Some fmt ->
      segs !! i = Some seg ->
      dict_get format_configs fmt = Some cfg ->
      count_calls is_YoutubeDL seg = 1 /\
      count_calls is_download seg
      = match YoutubeDL E (ydl_opts_of a fmt cfg)
                (env (for_formats a (take i l) s)) with
        | (Returns _, w1) =>
            match ydl_extract_info E (ydl_opts_of a fmt cfg) (url a) w1 with
            | (Returns (Some _), _) => 1
            | _ => 0
            end
        | (Raises _, _) => 0
        end.
Proof.
  revert s. induction l as [|fmt0 l IH]; intros s.
  - exists []. simpl. rewrite app_nil_r.
    split; [done|]. split; [constructor|]. intros i fmt cfg seg H. done.
  - rewrite for_formats_cons.
    destruct (process_format_session a fmt0 s) as (seg0 & Hc0 & Hone0 & Hpin0).
    destruct (IH (process_format a fmt0 s)) as (segs & Hc & Hall & Hpin).
    exists (seg0 :: segs). rewrite Hc, Hc0. simpl. rewrite app_assoc.
    split; [done|]. split; [by constructor|].
    intros [|i] fmt cfg seg Hfmt Hseg Hcfg; simpl in Hfmt, Hseg.
    + injection Hfmt as ->. injection Hseg as ->. by apply Hpin0.
    + change (take (S i) (fmt0 :: l)) with (fmt0 :: take i l).
      rewrite for_formats_cons. by eapply Hpin.
Qed.

(** What the body of the [try] and its handler append to ['downloads']:
    the entry of [delivers], when there is one, and nothing otherwise. *)
Lemma handled_try_delivers a fmt opts (s : state E) :
  exists ent,
    res_downloads
      (results
         (match try_body a fmt opts s with
          | (Returns _, s') => s'
          | (Raises e, s') =>
              snd (append_error
                     ("Error downloading " +:+ fmt +:+ ": " +:+ e) s')
          end))
    = res_downloads (results s) ++ option_list ent /\
    forall d, ent = Some d <-> delivers a fmt opts (env s) d.
Proof.
  destruct (YoutubeDL E opts (env s)) as [[u1|msg] w1] eqn:H1.
  2: { exists None. split.
       - unfold_body. simpl. rewrite H1. simpl. by rewrite app_nil_r.
       - intros d. split; [done|]. intros Hd. inversion Hd. congruence. }
  destruct (ydl_extract_info E opts (url a) w1) as [[[info|]|msg] w2] eqn:H2.
  2: { exists None. split.
       - unfold_body. simpl. rewrite H1. simpl. rewrite H2. simpl.
         by rewrite app_nil_r.
       - intros d. split; [done|]. intros Hd. inversion Hd. congruence. }
  2: { exists None. split.
       - unfold_body. simpl. rewrite H1. simpl. rewrite H2. simpl.
         by rewrite app_nil_r.
       - intros d. split; [done|]. intros Hd. inversion Hd. congruence. }
  destruct (ydl_download E opts [url a] w2) as [[u2|msg] w3] eqn:H3.
  2: { exists None. split.
       - unfold_body. simpl. rewrite H1. simpl. rewrite H2. simpl.
         rewrite H3. simpl. by rewrite app_nil_r.
       - intros d. split; [done|]. intros Hd. inversion Hd. congruence. }
  destruct (ydl_prepare_filename E opts info w3) as [[base|msg] w4] eqn:H4.
  2: { exists None. split.
       - unfold_body. simpl. rewrite H1. simpl. rewrite H2. simpl.
         rewrite H3. simpl. rewrite H4. simpl. by rewrite app_nil_r.
       - intros d. split; [done|]. intros Hd. inversion Hd. congruence. }
  destruct (os_stat E (final_filename base fmt) w4) as [bytes|] eqn:H5.
  2: { exists None. split.
       - unfold_body. simpl. rewrite H1. simpl. rewrite H2. simpl.
         rewrite H3. simpl. rewrite H4. simpl. rewrite H5. simpl.
         by rewrite app_nil_r.
       - intros d. split; [done|]. intros Hd. inversion Hd. congruence. }
  eexists (Some _). split.
  - unfold_body. simpl. rewrite H1. simpl. rewrite H2. simpl.
    rewrite H3. simpl. rewrite H4. simpl. rewrite H5. simpl. reflexivity.
  - intros d. split.
    + intros [= <-]. by eapply delivers_file.
    + intros Hd. inversion Hd. f_equal.
      unfold success_entry, thumbnail_formats. congruence.
Qed.

Lemma process_format_delivers a fmt (s : state E) :
  exists ent,
    res_downloads (results (process_format a fmt s))
    = res_downloads (results s) ++ option_list ent /\
    forall d,
      ent = Some d
      <-> exists cfg,
            dict_get format_configs fmt = Some cfg /\
            delivers a fmt (ydl_opts_of a fmt cfg) (env s) d.
Proof.
  unfold process_format.
  destruct (dict_get format_configs fmt) as [cfg|] eqn:Hcfg.
  - destruct (handled_try_delivers a fmt (ydl_opts_of a fmt cfg) s)
      as (ent & Hd & Hiff).
    exists ent. split; [exact Hd|]. intros d. rewrite Hiff. split.
    + intros H. by exists cfg.
    + by intros (cfg' & [= <-] & H).
  - exists None. simpl. rewrite app_nil_r. split; [done|].
    intros d. split; [done|]. by intros (cfg' & [=] & _).
Qed.

(** ['downloads'] after the loop, position by position. *)
Lemma for_formats_delivers a l (s : state E) :
  exists ents : list (option (download_entry E)),
    length ents = length l /\
    res_downloads (results (for_formats a l s))
    = res_downloads (results s) ++ omap id ents /\
    forall i fmt d,
      l !! i = Some fmt ->
      (ents !! i = Some (Some d)
       <-> exists cfg,
             dict_get format_configs fmt = Some cfg /\
             delivers a fmt (ydl_opts_of a fmt cfg)
               (env (for_formats a (take i l) s)) d).
Proof.
  revert s. induction l as [|fmt0 l IH]; intros s.
  - exists []. simpl. rewrite app_nil_r. split; [done|]. split; [done|].
    intros i fmt d H. done.
  - rewrite for_formats_cons.
    destruct (process_format_delivers a fmt0 s) as (ent & Hd0 & Hiff0).
    destruct (IH (process_format a fmt0 s)) as (ents & Hlen & Hd & Hiff).
    exists (ent :: ents). simpl. rewrite Hd, Hd0, <- app_assoc.
    split; [by rewrite Hlen|]. split; [by destruct ent|].
    intros [|i] fmt d Hfmt; simpl in Hfmt.
    + injection Hfmt as ->. simpl. rewrite <- Hiff0. split; congruence.
    + change (take (S i) (fmt0 :: l)) with (fmt0 :: take i l).
      rewrite for_formats_cons. simpl. by apply Hiff.
Qed.

End Answers.

(** ** Properties of the call *)

Section Properties.
Context {E : External}.

(** C1 (amended).  When the output directory can be made, the call returns,
    and the calls it made into yt_dlp split into one segment per requested
    format, in the order of the list.  A format outside the supported set
    has no call.  A format of the set has exactly one [YoutubeDL], built
    from the options of that format, followed by the calls of lines 160-168
    up to the first that raises; in it [download] is called once when
    [YoutubeDL] and [extract_info] answer with an [info] (in the world the
    formats before it left), and not at all when one of them raises or
    [extract_info] answers [None].  The option dictionaries handed over are
    those of the supported requested formats, one each, in order. *)
Theorem C1_one_session_per_supported_format (a : args) (w w0 : world E) u :
  os_makedirs E (output_dir a) w = (Returns u, w0) ->
  exists r tr w' segs,
    download_youtube_media a w = (Returns r, tr, w') /\
    tr = concat segs /\
    Forall2 (one_session a) (requested a) segs /\
    Forall2 (fun fmt o =>
               exists cfg, dict_get format_configs fmt = Some cfg /\
                           o = ydl_opts_of a fmt cfg)
            (supported_requested a) (handed_opts tr) /\
    forall i fmt cfg seg,
      requested a !! i = Some fmt ->
      segs !! i = Some seg ->
      dict_get format_configs fmt = Some cfg ->
      count_calls is_YoutubeDL seg = 1 /\
      count_calls is_download seg
      = match YoutubeDL E (ydl_opts_of a fmt cfg)
                (env (for_formats a (take i (requested a))
                        (initial_state a w0))) with
        | (Returns _, w1) =>
            match ydl_extract_info E (ydl_opts_of a fmt cfg) (url a) w1 with
            | (Returns (Some _), _) => 1
            | _ => 0
            end
        | (Raises _, _) => 0
        end.
Proof.
  intros Hmk. rewrite (download_youtube_media_returns _ _ _ _ Hmk).
  destruct (for_formats_segments a (requested a) (initial_state a w0))
    as (segs & Hc & Hs & Hpin).
  simpl in Hc. eexists _, _, _, segs. split; [reflexivity|].
  rewrite Hc. split; [done|]. split; [done|].
  split; [by apply handed_opts_sessions | exact Hpin].
Qed.

(** C2.  For a supported format whose session runs without raising up to
    [prepare_filename], the iteration looks the expected path up on disk:
    when the file is there, the entry with the format, that path, the size
    of that file ([round(getsize / (1024 * 1024), 2)], left abstract as
    [size_mb]), the two flags and [success] is appended to ['downloads'] and
    ['errors'] is left as it was; when it
    is not, ['downloads'] is left as it was and the string
    "File not found after download: <path>" is appended to ['errors']. *)
Theorem C2_entry_iff_file_exists
    (a : args) (fmt : string) (cfg : config) (s : state E)
    u1 u2 info base_filename w1 w2 w3 w4 :
  dict_get format_configs fmt = Some cfg ->
  YoutubeDL E (ydl_opts_of a fmt cfg) (env s) = (Returns u1, w1) ->
  ydl_extract_info E (ydl_opts_of a fmt cfg) (url a) w1
    = (Returns (Some info), w2) ->
  ydl_download E (ydl_opts_of a fmt cfg) [url a] w2 = (Returns u2, w3) ->
  ydl_prepare_filename E (ydl_opts_of a fmt cfg) info w3
    = (Returns base_filename, w4) ->
  match os_stat E (final_filename base_filename fmt) w4 with
  | Some bytes =>
      res_downloads (results (process_format a fmt s))
      = res_downloads (results s)
          ++ [ {| dl_format := fmt;
                  dl_filename := final_filename base_filename fmt;
                  dl_size_mb := size_mb E bytes;
                  dl_with_thumbnail :=
                    if str_in fmt ["mp3"; "flac"; "m4a"]
                    then include_thumbnail a else false;
                  dl_with_metadata := include_metadata a;
                  dl_success := true |} ] /\
      res_errors (results (process_format a fmt s)) = res_errors (results s)
  | None =>
      res_downloads (results (process_format a fmt s))
      = res_downloads (results s) /\
      res_errors (results (process_format a fmt s))
      = res_errors (results s)
          ++ ["File not found after download: "
                +:+ final_filename base_filename fmt]
  end.
Proof.
  intros Hcfg H1 H2 H3 H4. unfold process_format. rewrite Hcfg. clear Hcfg.
  set (opts := ydl_opts_of a fmt cfg) in *. clearbody opts.
  destruct (os_stat E (final_filename base_filename fmt) w4) eqn:Hstat;
    run_body_with_answers; split; reflexivity.
Qed.

(** C3.  When the [try] block of a supported format fails with the error
    string [e] (a call of the session raises, or the file is missing
    afterwards), the iteration appends [e] and nothing else to ['errors'],
    leaves ['downloads'] as it was, has built [YoutubeDL] once, and the
    loop goes on: every remaining format gets its own session and its own
    entry, appended after what was there. *)
Theorem C3_failure_is_recorded_once_and_loop_continues
    (a : args) (fmt : string) (cfg : config) (post : list string)
    (s : state E) (e : string) :
  dict_get format_configs fmt = Some cfg ->
  fails a fmt (ydl_opts_of a fmt cfg) (env s) e ->
  (res_downloads (results (process_format a fmt s))
     = res_downloads (results s) /\
   res_errors (results (process_format a fmt s))
     = res_errors (results s) ++ [e]) /\
  (exists rest,
      calls (process_format a fmt s)
      = calls s ++ CallYoutubeDL (ydl_opts_of a fmt cfg) :: rest /\
      rest `prefix_of`
        [CallExtractInfo (url a); CallDownload [url a]; CallPrepareFilename]) /\
  (exists segs ds es,
      calls (for_formats a (fmt :: post) s)
      = calls (process_format a fmt s) ++ concat segs /\
      Forall2 (one_session a) post segs /\
      res_downloads (results (for_formats a (fmt :: post) s))
      = res_downloads (results s) ++ ds /\
      res_errors (results (for_formats a (fmt :: post) s))
      = res_errors (results s) ++ [e] ++ es /\
      length ds + length es = length post).
Proof.
  intros Hcfg Hfails.
  destruct (process_format_fails a fmt cfg s e Hcfg Hfails)
    as (Hd & He & Hcalls).
  split; [done|]. split; [done|].
  rewrite for_formats_cons.
  destruct (for_formats_effect a post (process_format a fmt s))
    as (segs & fs & ds & es & _ & _ & Hd' & He' & Hc' & Hs' & Hl' & _).
  exists segs, ds, es. rewrite Hd', He', Hd, He, <- app_assoc. done.
Qed.

(** C5 (amended).  When the output directory can be made, the returned
    dictionary has the URL of the call and, as ['formats_requested'], the
    list that was passed or [["mp3"]] when none was.  Its ['downloads'] are
    given position by position over that list: the format at position [i]
    has an entry exactly when, in the world the formats before it left, its
    four calls return and the expected file is there, and the entry then
    holds that format, the path of line 169, the size of that file, the two
    flags and [success]; ['downloads'] is these entries in the order of
    the list, so their formats form a subsequence of it. *)
Theorem C5_returned_record (a : args) (w w0 : world E) u :
  os_makedirs E (output_dir a) w = (Returns u, w0) ->
  exists r tr w' (ents : list (option (download_entry E))),
    download_youtube_media a w = (Returns r, tr, w') /\
    res_url r = url a /\
    res_formats_requested r
    = match formats a with Some l => l | None => ["mp3"] end /\
    length ents = length (res_formats_requested r) /\
    res_downloads r = omap id ents /\
    (forall i fmt d,
        res_formats_requested r !! i = Some fmt ->
        (ents !! i = Some (Some d)
         <-> exists cfg,
               dict_get format_configs fmt = Some cfg /\
               delivers a fmt (ydl_opts_of a fmt cfg)
                 (env (for_formats a (take i (res_formats_requested r))
                         (initial_state a w0))) d)) /\
    map dl_format (res_downloads r) `sublist_of` res_formats_requested r.
Proof.
  intros Hmk. rewrite (download_youtube_media_returns _ _ _ _ Hmk).
  destruct (for_formats_effect a (requested a) (initial_state a w0))
    as (segs & fs & ds & es & Hu & Hf & Hd & _ & _ & _ & _ & Hsub & Hent).
  destruct (for_formats_delivers a (requested a) (initial_state a w0))
    as (ents & Hlen & Hd' & Hiff).
  simpl in Hu, Hf, Hd, Hd'. eexists _, _, _, ents. split; [reflexivity|].
  rewrite Hu, Hf. split; [done|]. split; [by destruct a as [? []]|].
  split; [done|]. split; [done|]. split; [exact Hiff|].
  rewrite Hd.
  assert (Hfs : map dl_format ds = fs).
  { clear -Hent. induction Hent as [|f d fs ds (b & n & ->) _ IH];
      simpl; [done | by rewrite IH]. }
  by rewrite Hfs.
Qed.

(** C7.  Between any point of the loop and any later point, ['url'] and
    ['formats_requested'] are the same, and the earlier ['downloads'] and
    ['errors'] are prefixes of the later ones; the two scalar fields are
    those of the call from the first iteration on. *)
Theorem C7_results_only_accumulate (a : args) (pre post : list string) :
  (forall s : state E,
      res_url (results (for_formats a (pre ++ post) s))
      = res_url (results (for_formats a pre s)) /\
      res_formats_requested (results (for_formats a (pre ++ post) s))
      = res_formats_requested (results (for_formats a pre s)) /\
      res_downloads (results (for_formats a pre s))
        `prefix_of` res_downloads (results (for_formats a (pre ++ post) s)) /\
      res_errors (results (for_formats a pre s))
        `prefix_of` res_errors (results (for_formats a (pre ++ post) s))) /\
  (forall w : world E,
      res_url (results (for_formats a pre (initial_state a w))) = url a /\
      res_formats_requested (results (for_formats a pre (initial_state a w)))
      = requested a).
Proof.
  split.
  - intros s. rewrite for_formats_app.
    destruct (for_formats_effect a post (for_formats a pre s))
      as (segs & fs & ds & es & Hu & Hf & Hd & He & _).
    rewrite Hu, Hf, Hd, He. split_and!; try done; by eexists.
  - intros w.
    destruct (for_formats_effect a pre (initial_state a w))
      as (segs & fs & ds & es & Hu & Hf & _).
    by rewrite Hu, Hf.
Qed.

(** C8.  When the output directory can be made, the returned dictionary
    has as many entries in ['downloads'] and ['errors'] together as there
    are requested formats. *)
Theorem C8_one_entry_per_format (a : args) (w w0 : world E) u :
  os_makedirs E (output_dir a) w = (Returns u, w0) ->
  exists r tr w',
    download_youtube_media a w = (Returns r, tr, w') /\
    length (res_downloads r) + length (res_errors r) = length (requested a).
Proof.
  intros Hmk. rewrite (download_youtube_media_returns _ _ _ _ Hmk).
  destruct (for_formats_effect a (requested a) (initial_state a w0))
    as (segs & fs & ds & es & _ & _ & Hd & He & _ & _ & Hl & _).
  simpl in Hd, He. eexists _, _, _. split; [reflexivity|].
  by rewrite Hd, He.
Qed.

(** C9.  For a format outside the supported set, the iteration appends
    "Unsupported format: <fmt>" to ['errors'] and changes nothing else:
    no call is made and the world is the same. *)
Theorem C9_unsupported_format (a : args) (fmt : string) (s : state E) :
  fmt ∉ supported_formats ->
  process_format a fmt s
  = {| results :=
         {| res_url := res_url (results s);
            res_formats_requested := res_formats_requested (results s);
            res_downloads := res_downloads (results s);
            res_errors :=
              res_errors (results s) ++ ["Unsupported format: " +:+ fmt] |};
       calls := calls s;
       env := env s |}.
Proof.
  intros Hs. apply dict_get_unsupported in Hs.
  unfold process_format. rewrite Hs. reflexivity.
Qed.

End Properties.

(** ** Properties of the options *)

(** Split a membership in a literal list into its cases. *)
Ltac elem_cases H :=
  repeat (apply elem_of_cons in H as [H|H]; [try discriminate H|]);
  try (by apply elem_of_nil in H).

(** C6.  For a format of the table, the options follow it: the four audio
    formats mp3, flac, wav and ogg select "bestaudio/best" and have one
    audio-extraction step, which carries the requested quality for mp3 and
    no quality for the others; mp4 and webm select the best stream of their
    container and have no ['postprocessors'] key; m4a selects the best m4a
    audio; a thumbnail step is there only if [include_thumbnail] is set and
    the format is one of mp3, flac, m4a; a metadata step is there only if
    [include_metadata] is set and the format is one of mp3, flac, wav,
    ogg. *)
Theorem C6_options_follow_the_table (a : args) (fmt : string) (cfg : config) :
  dict_get format_configs fmt = Some cfg ->
  (fmt ∈ ["mp3"; "flac"; "wav"; "ogg"] ->
     opt_format (ydl_opts_of a fmt cfg) = "bestaudio/best" /\
     exists codec,
       steps_with_key "FFmpegExtractAudio" (ydl_opts_of a fmt cfg)
       = [ {| pp_key := "FFmpegExtractAudio";
              pp_preferredcodec := Some codec;
              pp_preferredquality :=
                if String.eqb fmt "mp3" then Some (quality a) else None |} ]) /\
  (fmt = "mp4" ->
     opt_format (ydl_opts_of a fmt cfg) = "best[ext=mp4]/best" /\
     opt_postprocessors (ydl_opts_of a fmt cfg) = None) /\
  (fmt = "webm" ->
     opt_format (ydl_opts_of a fmt cfg) = "best[ext=webm]/best" /\
     opt_postprocessors (ydl_opts_of a fmt cfg) = None) /\
  (fmt = "m4a" ->
     opt_format (ydl_opts_of a fmt cfg) = "bestaudio[ext=m4a]/bestaudio") /\
  (has_step "EmbedThumbnail" (ydl_opts_of a fmt cfg) = true ->
     include_thumbnail a = true /\ fmt ∈ ["mp3"; "flac"; "m4a"]) /\
  (has_step "FFmpegMetadata" (ydl_opts_of a fmt cfg) = true ->
     include_metadata a = true /\ fmt ∈ ["mp3"; "flac"; "wav"; "ogg"]).
Proof.
  intros Hcfg. apply dict_get_elem_of in Hcfg. unfold format_configs in Hcfg.
  destruct a as [u f thumb meta dir q keep qt].
  unfold ydl_opts_of, ydl_opts, postprocessors, steps_with_key, has_step, steps.
  elem_cases Hcfg; injection Hcfg as -> ->; simpl;
    destruct thumb, meta; simpl;
    (split_and!;
     [ intros H; elem_cases H; (split; [reflexivity | eexists; reflexivity])
     | intros H; try discriminate H; (split; reflexivity)
     | intros H; try discriminate H; (split; reflexivity)
     | intros H; try discriminate H; reflexivity
     | intros H; try discriminate H; (split; [reflexivity | repeat constructor])
     | intros H; try discriminate H; (split; [reflexivity | repeat constructor]) ]).
Qed.

(** The options of a format other than mp3 do not read [quality]. *)
Lemma ydl_opts_quality_irrelevant (a1 a2 : args) (fmt : string) (cfg : config) :
  same_but_quality a1 a2 ->
  fmt <> "mp3" ->
  ydl_opts_of a1 fmt cfg = ydl_opts_of a2 fmt cfg.
Proof.
  intros (_ & _ & Ht & Hm & Hd & Hk & Hq) Hne.
  apply String.eqb_neq in Hne.
  unfold ydl_opts_of, ydl_opts, postprocessors.
  rewrite Ht, Hm, Hd, Hk, Hq, Hne. reflexivity.
Qed.

Section Quality.
Context {E : External}.

(** C10.  Take two calls whose arguments differ at most in [quality], each
    from a world where the output directory can be made.  For a format
    other than mp3 the options built are equal; both calls hand over one
    option dictionary per supported requested format, and at every
    position whose format is not mp3 the two dictionaries are the same. *)
Theorem C10_quality_only_reaches_mp3
    (a1 a2 : args) (w1 w2 w1' w2' : world E) u1 u2 :
  same_but_quality a1 a2 ->
  os_makedirs E (output_dir a1) w1 = (Returns u1, w1') ->
  os_makedirs E (output_dir a2) w2 = (Returns u2, w2') ->
  (forall fmt cfg,
      fmt <> "mp3" -> ydl_opts_of a1 fmt cfg = ydl_opts_of a2 fmt cfg) /\
  length (handed_opts (snd (fst (download_youtube_media a1 w1))))
    = length (supported_requested a1) /\
  length (handed_opts (snd (fst (download_youtube_media a2 w2))))
    = length (supported_requested a1) /\
  (forall i fmt,
      supported_requested a1 !! i = Some fmt ->
      fmt <> "mp3" ->
      is_Some (handed_opts (snd (fst (download_youtube_media a1 w1))) !! i) /\
      handed_opts (snd (fst (download_youtube_media a1 w1))) !! i
      = handed_opts (snd (fst (download_youtube_media a2 w2))) !! i).
Proof.
  intros Hsame Hmk1 Hmk2.
  destruct (handed_opts_of_run a1 w1 w1' u1 Hmk1) as (tr1 & Htr1 & H1).
  destruct (handed_opts_of_run a2 w2 w2' u2 Hmk2) as (tr2 & Htr2 & H2).
  rewrite Htr1, Htr2.
  assert (Hsup : supported_requested a2 = supported_requested a1).
  { unfold supported_requested, requested.
    destruct Hsame as (_ & -> & _). reflexivity. }
  rewrite Hsup in H2.
  split; [intros; by apply ydl_opts_quality_irrelevant|].
  split; [symmetry; eapply Forall2_length, H1|].
  split; [symmetry; eapply Forall2_length, H2|].
  intros i fmt Hi Hne.
  destruct (Forall2_lookup_l _ _ _ _ _ H1 Hi) as (o1 & Ho1 & cfg1 & Hc1 & ->).
  destruct (Forall2_lookup_l _ _ _ _ _ H2 Hi) as (o2 & Ho2 & cfg2 & Hc2 & ->).
  rewrite Ho1, Ho2. split; [eauto|].
  rewrite Hc1 in Hc2. injection Hc2 as ->.
  f_equal. by apply ydl_opts_quality_irrelevant.
Qed.

End Quality.

(** ** The flags of a success entry against the steps configured *)

(** X18.  For a format of the table, a thumbnail step is configured exactly
    when [include_thumbnail] is set and the format is mp3 or flac, and a
    metadata step exactly when [include_metadata] is set and the format is
    mp3, flac, wav or ogg. *)
Lemma steps_exactly_when (a : args) (fmt : string) (cfg : config) :
  dict_get format_configs fmt = Some cfg ->
  (has_step "EmbedThumbnail" (ydl_opts_of a fmt cfg) = true
   <-> include_thumbnail a = true /\ fmt ∈ ["mp3"; "flac"]) /\
  (has_step "FFmpegMetadata" (ydl_opts_of a fmt cfg) = true
   <-> include_metadata a = true /\ fmt ∈ ["mp3"; "flac"; "wav"; "ogg"]).
Proof.
  intros Hcfg. apply dict_get_elem_of in Hcfg. unfold format_configs in Hcfg.
  destruct a as [u f thumb meta dir q keep qt].
  unfold ydl_opts_of, ydl_opts, postprocessors, has_step, steps.
  elem_cases Hcfg; injection Hcfg as -> ->; simpl;
    destruct thumb, meta; simpl;
    (split; (split;
       [ intros H; try discriminate H; (split; [reflexivity | repeat constructor])
       | intros [H1 H2]; first [ reflexivity | discriminate H1 | by elem_cases H2 ] ])).
Qed.

(** X19.  Where the two flags of an entry agree with the options of its format:
    the thumbnail flag everywhere but for m4a with [include_thumbnail] set,
    the metadata flag on the four audio formats and wherever
    [include_metadata] is unset. *)
Lemma flags_agree_iff {E : External} (a : args) (fmt path : string)
    (bytes : Z) (cfg : config) :
  dict_get format_configs fmt = Some cfg ->
  (dl_with_thumbnail (success_entry (E := E) a fmt path bytes)
   = has_step "EmbedThumbnail" (ydl_opts_of a fmt cfg)
   <-> fmt <> "m4a" \/ include_thumbnail a = false) /\
  (dl_with_metadata (success_entry (E := E) a fmt path bytes)
   = has_step "FFmpegMetadata" (ydl_opts_of a fmt cfg)
   <-> fmt ∈ audio_formats \/ include_metadata a = false).
Proof.
  intros Hcfg. apply dict_get_elem_of in Hcfg. unfold format_configs in Hcfg.
  destruct a as [u f thumb meta dir q keep qt].
  unfold ydl_opts_of, ydl_opts, postprocessors, has_step, steps, audio_formats.
  elem_cases Hcfg; injection Hcfg as -> ->; simpl;
    destruct thumb, meta; simpl;
    (split; (split;
       [ intros H; try discriminate H;
         first [ by left; repeat constructor | by left | by right ]
       | intros [H|H]; first [ reflexivity | done | by elem_cases H ] ])).
Qed.

(** C4.  The code at two inputs, in the demo environment where every
    download leaves its file.  For ["m4a"] with [include_thumbnail] set, the
    entry says [with_thumbnail = True] although the options handed over have
    no ['postprocessors'] and no ['writethumbnail']: the branch of line 137
    names m4a but sits under the guard of line 129, which m4a does not pass.
    For ["mp4"] with [include_metadata] set, the entry says
    [with_metadata = True] although no metadata step was configured. *)
Theorem C4_flags_set_without_steps :
  (map dl_with_thumbnail (Demo.downloads "v" ["m4a"] true false) = [true] /\
   map (has_step "EmbedThumbnail") (Demo.handed "v" ["m4a"] true false) = [false] /\
   map opt_writethumbnail (Demo.handed "v" ["m4a"] true false) = [None] /\
   map opt_postprocessors (Demo.handed "v" ["m4a"] true false) = [None]) /\
  (map dl_with_metadata (Demo.downloads "v" ["mp4"] false true) = [true] /\
   map (has_step "FFmpegMetadata") (Demo.handed "v" ["mp4"] false true) = [false] /\
   map opt_postprocessors (Demo.handed "v" ["mp4"] false true) = [None]).
Proof. vm_compute. repeat split. Qed.

(** ** The theorems at concrete inputs *)

Lemma C1_witness :
  os_makedirs Demo.library (output_dir Sample.a) [] = (Returns tt, []) /\
  exists r tr w' segs,
    download_youtube_media (E := Demo.library) Sample.a [] = (Returns r, tr, w') /\
    tr = concat segs /\
    Forall2 (one_session Sample.a) (requested Sample.a) segs /\
    Forall2 (fun fmt o =>
               exists cfg, dict_get format_configs fmt = Some cfg /\
                           o = ydl_opts_of Sample.a fmt cfg)
            (supported_requested Sample.a) (handed_opts tr) /\
    forall i fmt cfg seg,
      requested Sample.a !! i = Some fmt ->
      segs !! i = Some seg ->
      dict_get format_configs fmt = Some cfg ->
      count_calls is_YoutubeDL seg = 1 /\
      count_calls is_download seg
      = match YoutubeDL Demo.library (ydl_opts_of Sample.a fmt cfg)
                (env (for_formats (E := Demo.library) Sample.a
                        (take i (requested Sample.a))
                        Sample.s0)) with
        | (Returns _, w1) =>
            match ydl_extract_info Demo.library (ydl_opts_of Sample.a fmt cfg)
                    (url Sample.a) w1 with
            | (Returns (Some _), _) => 1
            | _ => 0
            end
        | (Raises _, _) => 0
        end.
Proof.
  split; [reflexivity|].
  apply (C1_one_session_per_supported_format (E := Demo.library)
           Sample.a [] [] tt).
  reflexivity.
Defined.

(** C1 as it was stated fails.  Read literally, every supported requested
    format has its [download] called once.  For the URL that cannot be
    resolved both requested formats, mp3 and mp4, are supported, and
    [extract_info] raises for each, so [download] is never called. *)
Lemma C1_counterexample :
  ~ (forall r tr w',
        download_youtube_media (E := Demo.library) Sample.a_unresolved []
        = (Returns r, tr, w') ->
        exists segs,
          tr = concat segs /\
          Forall2 (fun fmt seg =>
                     fmt ∈ supported_formats ->
                     count_calls is_download seg = 1)
                  (requested Sample.a_unresolved) segs).
Proof.
  intros H.
  destruct (H _ _ _ eq_refl) as (segs & Htr & Hall).
  apply (f_equal (count_calls is_download)) in Htr.
  change (requested Sample.a_unresolved) with ["mp3"; "mp4"] in Hall.
  apply Forall2_cons_inv_l in Hall as (s1 & segs1 & H1 & Hall & ->).
  apply Forall2_cons_inv_l in Hall as (s2 & segs2 & H2 & Hall & ->).
  apply Forall2_nil_inv_l in Hall as ->.
  assert (Hmp3 : "mp3" ∈ supported_formats)
    by (apply (bool_decide_unpack _); vm_compute; exact I).
  assert (Hmp4 : "mp4" ∈ supported_formats)
    by (apply (bool_decide_unpack _); vm_compute; exact I).
  specialize (H1 Hmp3). specialize (H2 Hmp4).
  simpl in Htr. rewrite app_nil_r in Htr.
  unfold count_calls in *. rewrite List.filter_app, length_app in Htr.
  rewrite H1, H2 in Htr. vm_compute in Htr. discriminate Htr.
Qed.

Lemma C2_witness :
  res_downloads (results (process_format Sample.a "mp3" Sample.s0))
  = [DownloadEntry (E := Demo.library)
       "mp3" "downloads/%(title)s_mp3.mp3" 300%Z true true true] /\
  res_errors (results (process_format Sample.a "mp3" Sample.s0)) = [].
Proof.
  apply (C2_entry_iff_file_exists (E := Demo.library)
           Sample.a "mp3" Sample.mp3_config Sample.s0
           tt tt "v" "downloads/%(title)s_mp3.%(ext)s"
           [] [] [("downloads/%(title)s_mp3.mp3", 3145728%Z)]
           [("downloads/%(title)s_mp3.mp3", 3145728%Z)]);
    reflexivity.
Defined.

Lemma C3_witness :
  (res_downloads (results (process_format Sample.a_unresolved "mp3"
                             Sample.s0_unresolved)) = [] /\
   res_errors (results (process_format Sample.a_unresolved "mp3"
                          Sample.s0_unresolved))
   = ["Error downloading mp3: ERROR: unable to resolve"]) /\
  (exists rest,
      calls (process_format Sample.a_unresolved "mp3" Sample.s0_unresolved)
      = [] ++ CallYoutubeDL
                (ydl_opts_of Sample.a_unresolved "mp3" Sample.mp3_config)
              :: rest /\
      rest `prefix_of`
        [CallExtractInfo ""; CallDownload [""]; CallPrepareFilename]) /\
  (exists segs ds es,
      calls (for_formats Sample.a_unresolved ["mp3"; "mp4"]
               Sample.s0_unresolved)
      = calls (process_format Sample.a_unresolved "mp3" Sample.s0_unresolved)
          ++ concat segs /\
      Forall2 (one_session Sample.a_unresolved) ["mp4"] segs /\
      res_downloads (results (for_formats Sample.a_unresolved ["mp3"; "mp4"]
                                Sample.s0_unresolved)) = [] ++ ds /\
      res_errors (results (for_formats Sample.a_unresolved ["mp3"; "mp4"]
                             Sample.s0_unresolved))
      = [] ++ ["Error downloading mp3: ERROR: unable to resolve"] ++ es /\
      length ds + length es = 1).
Proof.
  apply (C3_failure_is_recorded_once_and_loop_continues (E := Demo.library)
           Sample.a_unresolved "mp3" Sample.mp3_config ["mp4"]
           Sample.s0_unresolved
           "Error downloading mp3: ERROR: unable to resolve").
  - reflexivity.
  - apply (fails_extract_info (E := Demo.library) Sample.a_unresolved "mp3"
             (ydl_opts_of Sample.a_unresolved "mp3" Sample.mp3_config)
             [] tt "ERROR: unable to resolve" [] []); reflexivity.
Defined.

Lemma C5_witness :
  os_makedirs Demo.library (output_dir Sample.a) [] = (Returns tt, []) /\
  exists r tr w' (ents : list (option (download_entry Demo.library))),
    download_youtube_media (E := Demo.library) Sample.a [] = (Returns r, tr, w') /\
    res_url r = "v" /\
    res_formats_requested r = ["mp3"; "avi"; "mp4"] /\
    length ents = length (res_formats_requested r) /\
    res_downloads r = omap id ents /\
    (forall i fmt d,
        res_formats_requested r !! i = Some fmt ->
        (ents !! i = Some (Some d)
         <-> exists cfg,
               dict_get format_configs fmt = Some cfg /\
               delivers Sample.a fmt (ydl_opts_of Sample.a fmt cfg)
                 (env (for_formats (E := Demo.library) Sample.a
                         (take i (res_formats_requested r))
                         Sample.s0)) d)) /\
    map dl_format (res_downloads r) `sublist_of` res_formats_requested r.
Proof.
  split; [reflexivity|].
  apply (C5_returned_record (E := Demo.library) Sample.a [] [] tt).
  reflexivity.
Defined.

(** C5 as it was stated fails.  Read literally, ['formats_requested'] is
    what was passed as [formats].  Called without [formats], the function
    returns [["mp3"]] there (lines 53-54). *)
Lemma C5_counterexample :
  ~ (forall r tr w',
        download_youtube_media (E := Demo.library) SampleCalls.a_default []
        = (Returns r, tr, w') ->
        Some (res_formats_requested r) = formats SampleCalls.a_default).
Proof.
  intros H. specialize (H _ _ _ eq_refl). discriminate H.
Qed.

Lemma C6_witness :
  dict_get format_configs "mp3" = Some Sample.mp3_config /\
  opt_format (ydl_opts_of Sample.a "mp3" Sample.mp3_config) = "bestaudio/best" /\
  exists codec,
    steps_with_key "FFmpegExtractAudio"
      (ydl_opts_of Sample.a "mp3" Sample.mp3_config)
    = [ {| pp_key := "FFmpegExtractAudio";
           pp_preferredcodec := Some codec;
           pp_preferredquality := Some "192" |} ].
Proof.
  split; [reflexivity|].
  apply (C6_options_follow_the_table Sample.a "mp3" Sample.mp3_config).
  - reflexivity.
  - apply list_elem_of_here.
Defined.

Lemma C8_witness :
  os_makedirs Demo.library (output_dir Sample.a) [] = (Returns tt, []) /\
  exists r tr w',
    download_youtube_media (E := Demo.library) Sample.a [] = (Returns r, tr, w') /\
    length (res_downloads r) + length (res_errors r) = 3.
Proof.
  split; [reflexivity|].
  apply (C8_one_entry_per_format (E := Demo.library) Sample.a [] [] tt).
  reflexivity.
Defined.

Lemma C9_witness :
  process_format Sample.a "avi" Sample.s0
  = State (E := Demo.library)
      {| res_url := "v";
            res_formats_requested := ["mp3"; "avi"; "mp4"];
            res_downloads := [];
         res_errors := ["Unsupported format: avi"] |}
      [] [].
Proof.
  apply (C9_unsupported_format (E := Demo.library) Sample.a "avi" Sample.s0).
  apply (bool_decide_unpack _). vm_compute. exact I.
Defined.

Lemma C10_witness :
  same_but_quality Sample.a Sample.a_320 /\
  forall i fmt,
    supported_requested Sample.a !! i = Some fmt ->
    fmt <> "mp3" ->
    is_Some (handed_opts
               (snd (fst (download_youtube_media (E := Demo.library)
                            Sample.a []))) !! i) /\
    handed_opts (snd (fst (download_youtube_media (E := Demo.library)
                             Sample.a []))) !! i
    = handed_opts (snd (fst (download_youtube_media (E := Demo.library)
                               Sample.a_320 []))) !! i.
Proof.
  assert (Hsame : same_but_quality Sample.a Sample.a_320)
    by (repeat split).
  split; [exact Hsame|].
  apply (C10_quality_only_reaches_mp3 (E := Demo.library)
           Sample.a Sample.a_320 [] [] [] [] tt tt Hsame);
    reflexivity.
Defined.

(** ** File names and output templates *)

(** X1.  Line 169 replaces the extension: when what follows the last dot of
    the prepared name is [ext] (so [ext] has no dot), the expected file is
    the same stem with [fmt] as its extension, whatever dots the stem has. *)
Theorem final_filename_replaces_extension (stem ext fmt : string) :
  has_dot ext = false ->
  final_filename (stem +:+ "." +:+ ext) fmt = stem +:+ "." +:+ fmt.
Proof.
  intros Hext. unfold final_filename, rsplit_dot_head.
  by rewrite before_last_dot_app.
Qed.

(** X2.  A prepared name without any dot is kept whole: the extension is
    appended, nothing is cut off. *)
Theorem final_filename_without_dot (base_filename fmt : string) :
  has_dot base_filename = false ->
  final_filename base_filename fmt = base_filename +:+ "." +:+ fmt.
Proof.
  intros H. apply before_last_dot_None in H.
  unfold final_filename, rsplit_dot_head. by rewrite H.
Qed.

(** X3.  Computing the expected file from an expected file changes nothing,
    as long as the format identifier has no dot. *)
Theorem final_filename_idempotent (base_filename fmt : string) :
  has_dot fmt = false ->
  final_filename (final_filename base_filename fmt) fmt
  = final_filename base_filename fmt.
Proof.
  intros H. unfold final_filename at 2.
  unfold final_filename, rsplit_dot_head.
  by rewrite before_last_dot_app.
Qed.

Lemma ends_with_slash_app_slash (d : string) :
  ends_with_slash (d +:+ "/") = true.
Proof.
  induction d as [|c d IH]; [done|].
  rewrite string_app_cons.
  destruct d as [|c' d]; [done|].
  rewrite string_app_cons in *. exact IH.
Qed.

(** X4.  A trailing slash on a non-empty output directory makes no
    difference to the output template. *)
Theorem path_join_trailing_slash (d b : string) :
  d <> "" ->
  ends_with_slash d = false ->
  path_join (d +:+ "/") b = path_join d b.
Proof.
  intros Hne Hslash. unfold path_join.
  rewrite ends_with_slash_app_slash, Hslash, string_app_assoc.
  destruct d as [|c d]; [done|]. reflexivity.
Qed.

Lemma path_join_inj (d b1 b2 : string) :
  path_join d b1 = path_join d b2 -> b1 = b2.
Proof.
  unfold path_join. destruct d as [|c d]; [done|].
  destruct (ends_with_slash (String c d)); intros H.
  - by apply (inj (String.app _)) in H.
  - apply (inj (String.app _)) in H. by injection H.
Qed.

(** X5.  Two formats never share an output template: the template of line
    120 determines the format it was built for, whatever the directory. *)
Theorem outtmpl_determines_format (a : args) (fmt1 fmt2 : string)
    (cfg1 cfg2 : config) :
  opt_outtmpl (ydl_opts_of a fmt1 cfg1) = opt_outtmpl (ydl_opts_of a fmt2 cfg2) ->
  fmt1 = fmt2.
Proof.
  unfold ydl_opts_of, ydl_opts. simpl. intros H.
  apply path_join_inj in H.
  apply (inj (String.app _)) in H.
  by apply string_app_inj_l in H.
Qed.

(** ** Order and consistency of the options *)

(** Close a goal [l1 `sublist_of` l2] on literal lists. *)
Ltac sublist_lit :=
  repeat first [apply sublist_nil_l | apply sublist_skip | apply sublist_cons].

(** X6.  For a format of the table the steps come in one fixed order, each
    at most once: audio extraction, then thumbnail embedding, then metadata;
    and when there is any step at all, the first one is audio extraction. *)
Theorem steps_in_fixed_order (a : args) (fmt : string) (cfg : config) :
  dict_get format_configs fmt = Some cfg ->
  map pp_key (steps (ydl_opts_of a fmt cfg))
    `sublist_of` ["FFmpegExtractAudio"; "EmbedThumbnail"; "FFmpegMetadata"] /\
  match steps (ydl_opts_of a fmt cfg) with
  | [] => True
  | p :: _ => pp_key p = "FFmpegExtractAudio"
  end.
Proof.
  intros Hcfg. apply dict_get_elem_of in Hcfg. unfold format_configs in Hcfg.
  destruct a as [u f thumb meta dir q keep qt].
  unfold ydl_opts_of, ydl_opts, postprocessors, steps.
  elem_cases Hcfg; injection Hcfg as -> ->; simpl;
    destruct thumb, meta; simpl; (split; [sublist_lit | done]).
Qed.

(** X7.  The key ['writethumbnail'] is set (to [True]) exactly when a
    thumbnail step is configured: a thumbnail is never written without being
    embedded, nor embedded without being written. *)
Theorem writethumbnail_iff_step (a : args) (fmt : string) (cfg : config) :
  dict_get format_configs fmt = Some cfg ->
  opt_writethumbnail (ydl_opts_of a fmt cfg)
  = if has_step "EmbedThumbnail" (ydl_opts_of a fmt cfg)
    then Some true else None.
Proof.
  intros Hcfg. apply dict_get_elem_of in Hcfg. unfold format_configs in Hcfg.
  destruct a as [u f thumb meta dir q keep qt].
  unfold ydl_opts_of, ydl_opts, postprocessors, has_step, steps,
    embeds_thumbnail.
  elem_cases Hcfg; injection Hcfg as -> ->; simpl;
    destruct thumb, meta; reflexivity.
Qed.

(** ** What each requested format leaves behind *)

Section PerFormatFacts.
Context {E : External}.

Lemma process_format_outcome a fmt (s : state E) :
  exists o,
    outcome_for a fmt o /\
    res_downloads (results (process_format a fmt s))
    = res_downloads (results s) ++ entries_of [o] /\
    res_errors (results (process_format a fmt s))
    = res_errors (results s) ++ errors_of [o].
Proof.
  destruct (dict_get format_configs fmt) as [cfg|] eqn:Hcfg.
  - assert (Hs : fmt ∈ supported_formats)
      by (apply dict_get_supported; eauto).
    destruct (succeeds_or_fails_shape a fmt cfg s Hcfg)
      as [(e & He & Hd & Herr)|(d & Hent & Hd & Herr)].
    + exists (inr e). simpl. rewrite Hd, Herr, app_nil_r. split; [|done].
      right. done.
    + exists (inl d). simpl. rewrite Hd, Herr, app_nil_r. done.
  - assert (Hs : fmt ∉ supported_formats) by by apply dict_get_unsupported.
    exists (inr ("Unsupported format: " +:+ fmt)).
    unfold process_format. rewrite Hcfg. simpl. rewrite app_nil_r.
    split; [|done]. left. done.
Qed.

Lemma for_formats_outcomes a l (s : state E) :
  exists os,
    Forall2 (outcome_for a) l os /\
    res_downloads (results (for_formats a l s))
    = res_downloads (results s) ++ entries_of os /\
    res_errors (results (for_formats a l s))
    = res_errors (results s) ++ errors_of os.
Proof.
  revert s. induction l as [|fmt l IH]; intros s.
  - exists []. simpl. rewrite !app_nil_r. split; [constructor | done].
  - rewrite for_formats_cons.
    destruct (process_format_outcome a fmt s) as (o & Ho & Hd1 & He1).
    destruct (IH (process_format a fmt s)) as (os & Hos & Hd & He).
    exists (o :: os). rewrite Hd, He, Hd1, He1, <- !app_assoc.
    split; [by constructor|].
    unfold entries_of, errors_of. rewrite <- !omap_app. done.
Qed.

(** A run from the initial state that leaves no error has one entry per
    format, in order. *)
Lemma for_formats_no_error a l (w0 : world E) :
  res_errors (results (for_formats a l (initial_state a w0))) = [] ->
  map dl_format (res_downloads (results (for_formats a l (initial_state a w0))))
  = l.
Proof.
  destruct (for_formats_outcomes a l (initial_state a w0))
    as (os & Hos & Hd & He).
  rewrite Hd, He. simpl. clear Hd He.
  induction Hos as [|fmt o l os Ho _ IH]; [done|].
  destruct o as [d|e]; simpl; [|done].
  intros Herr. destruct Ho as [_ (b & n & ->)]. simpl. f_equal. by apply IH.
Qed.

(** A run over supported formats leaves no "Unsupported format" error. *)
Lemma for_formats_supported_errors a l (w0 : world E) :
  Forall (fun fmt => fmt ∈ supported_formats) l ->
  Forall (fun e =>
            (exists fmt msg,
                e = "Error downloading " +:+ fmt +:+ ": " +:+ msg) \/
            (exists path, e = "File not found after download: " +:+ path))
         (res_errors (results (for_formats a l (initial_state a w0)))).
Proof.
  intros Hl.
  destruct (for_formats_outcomes a l (initial_state a w0))
    as (os & Hos & _ & He).
  rewrite He. simpl. clear He.
  induction Hos as [|fmt o l os Ho _ IH]; [constructor|].
  apply Forall_cons in Hl as [Hfmt Hl].
  destruct o as [d|e]; simpl; [by apply IH|].
  constructor; [|by apply IH].
  destruct Ho as [[Hn _]|[_ [(msg & ->)|(base & ->)]]]; [done | left | right];
    eauto.
Qed.

(** X8.  The returned dictionary, format by format: there is one outcome per
    requested format, in the order of the list, an entry of ['downloads']
    for a supported format or one error string ("Unsupported format: ..."
    for a format outside the table, "Error downloading <fmt>: ..." or
    "File not found after download: ..." for one inside); ['downloads'] is
    the entries among the outcomes and ['errors'] the strings, both in that
    order. *)
Theorem results_follow_the_formats (a : args) (w w0 : world E) u :
  os_makedirs E (output_dir a) w = (Returns u, w0) ->
  exists r tr w' os,
    download_youtube_media a w = (Returns r, tr, w') /\
    Forall2 (outcome_for a) (requested a) os /\
    res_downloads r = entries_of os /\
    res_errors r = errors_of os.
Proof.
  intros Hmk. rewrite (download_youtube_media_returns _ _ _ _ Hmk).
  destruct (for_formats_outcomes a (requested a) (initial_state a w0))
    as (os & Hos & Hd & He).
  eexists _, _, _, os. split; [reflexivity|]. done.
Qed.

End PerFormatFacts.

(** ** Edge cases and composition of the loop *)

Section LoopFacts.
Context {E : External}.

Lemma for_formats_unsupported a l (s : state E) :
  Forall (fun fmt => fmt ∉ supported_formats) l ->
  for_formats a l s
  = {| results :=
         {| res_url := res_url (results s);
            res_formats_requested := res_formats_requested (results s);
            res_downloads := res_downloads (results s);
            res_errors := res_errors (results s) ++ unsupported_errors l |};
       calls := calls s;
       env := env s |}.
Proof.
  intros Hl. revert s. induction Hl as [|fmt l Hfmt _ IH]; intros s.
  - simpl. rewrite app_nil_r. by destruct s as [[] ? ?].
  - rewrite for_formats_cons, IH.
    apply dict_get_unsupported in Hfmt.
    unfold process_format. rewrite Hfmt. simpl.
    by rewrite <- app_assoc.
Qed.

(** X9.  When no requested format is in the table (in particular for the
    empty list, which is not replaced by the default), the call makes no
    call into yt_dlp, leaves the world as [os.makedirs] left it, and returns
    no download and one "Unsupported format" error per format, in order. *)
Theorem only_unsupported_formats (a : args) (w w0 : world E) u :
  os_makedirs E (output_dir a) w = (Returns u, w0) ->
  Forall (fun fmt => fmt ∉ supported_formats) (requested a) ->
  download_youtube_media a w
  = (Returns {| res_url := url a;
                res_formats_requested := requested a;
                res_downloads := [];
                res_errors := unsupported_errors (requested a) |},
     [], w0).
Proof.
  intros Hmk Hl. rewrite (download_youtube_media_returns _ _ _ _ Hmk).
  by rewrite (for_formats_unsupported _ _ _ Hl).
Qed.

(** What an iteration appends, the calls it makes and the world it leaves
    depend on the world it starts from, not on the dictionary [results]. *)
Lemma process_format_local a fmt (s1 s2 : state E) :
  env s1 = env s2 ->
  exists seg ds es,
    calls (process_format a fmt s1) = calls s1 ++ seg /\
    calls (process_format a fmt s2) = calls s2 ++ seg /\
    res_downloads (results (process_format a fmt s1))
    = res_downloads (results s1) ++ ds /\
    res_downloads (results (process_format a fmt s2))
    = res_downloads (results s2) ++ ds /\
    res_errors (results (process_format a fmt s1))
    = res_errors (results s1) ++ es /\
    res_errors (results (process_format a fmt s2))
    = res_errors (results s2) ++ es /\
    env (process_format a fmt s1) = env (process_format a fmt s2).
Proof.
  intros Henv. unfold process_format.
  destruct (dict_get format_configs fmt) as [cfg|].
  - set (opts := ydl_opts_of a fmt cfg) in *. clearbody opts.
    unfold_body. simpl. rewrite <- Henv.
    repeat (case_match; simplify_eq/=;
            repeat match goal with
                   | H1 : ?t = _, H2 : ?t = _ |- _ =>
                       rewrite H1 in H2; simplify_eq/=
                   end);
      rewrite <- ?app_assoc; simpl;
      (eexists _, _, _; split_and!;
       [ reflexivity | reflexivity
       | first [reflexivity | symmetry; apply app_nil_r]
       | first [reflexivity | symmetry; apply app_nil_r]
       | first [reflexivity | symmetry; apply app_nil_r]
       | first [reflexivity | symmetry; apply app_nil_r]
       | reflexivity ]).
  - simpl. exists [], [], ["Unsupported format: " +:+ fmt].
    rewrite !app_nil_r. done.
Qed.

Lemma for_formats_local a l (s1 s2 : state E) :
  env s1 = env s2 ->
  exists tr ds es,
    calls (for_formats a l s1) = calls s1 ++ tr /\
    calls (for_formats a l s2) = calls s2 ++ tr /\
    res_downloads (results (for_formats a l s1))
    = res_downloads (results s1) ++ ds /\
    res_downloads (results (for_formats a l s2))
    = res_downloads (results s2) ++ ds /\
    res_errors (results (for_formats a l s1))
    = res_errors (results s1) ++ es /\
    res_errors (results (for_formats a l s2))
    = res_errors (results s2) ++ es /\
    env (for_formats a l s1) = env (for_formats a l s2).
Proof.
  revert s1 s2. induction l as [|fmt l IH]; intros s1 s2 Henv.
  - exists [], [], []. simpl. rewrite !app_nil_r. done.
  - rewrite !for_formats_cons.
    destruct (process_format_local a fmt s1 s2 Henv)
      as (seg & ds1 & es1 & Hc1 & Hc2 & Hd1 & Hd2 & He1 & He2 & Henv').
    destruct (IH _ _ Henv')
      as (tr & ds & es & Hc1' & Hc2' & Hd1' & Hd2' & He1' & He2' & Henv'').
    exists (seg ++ tr), (ds1 ++ ds), (es1 ++ es).
    rewrite Hc1', Hc2', Hd1', Hd2', He1', He2', Hc1, Hc2, Hd1, Hd2, He1, He2.
    rewrite <- !app_assoc. done.
Qed.

Lemma for_formats_with_formats a l' l (s : state E) :
  for_formats (with_formats a l') l s = for_formats a l s.
Proof. destruct a. reflexivity. Qed.

(** A run from any state, rebuilt from the run from a fresh state in the
    same world. *)
Lemma for_formats_rebase a l (s s0 : state E) :
  env s = env s0 ->
  res_downloads (results s0) = [] ->
  res_errors (results s0) = [] ->
  calls s0 = [] ->
  for_formats a l s
  = {| results :=
         {| res_url := res_url (results s);
            res_formats_requested := res_formats_requested (results s);
            res_downloads :=
              res_downloads (results s)
                ++ res_downloads (results (for_formats a l s0));
            res_errors :=
              res_errors (results s)
                ++ res_errors (results (for_formats a l s0)) |};
       calls := calls s ++ calls (for_formats a l s0);
       env := env (for_formats a l s0) |}.
Proof.
  intros Henv Hd0 He0 Hc0.
  destruct (for_formats_local a l s s0 Henv)
    as (tr & ds & es & Hc & Hc' & Hd & Hd' & He & He' & Henv').
  destruct (for_formats_effect a l s) as (_ & _ & _ & _ & Hu & Hf & _).
  rewrite Hc', Hd', He', Hd0, He0, Hc0, <- Henv'. simpl.
  destruct (for_formats a l s) as [[ru rf rd re] rc rw].
  simpl in *. congruence.
Qed.

Lemma download_youtube_media_inv a (w w' : world E) r tr :
  download_youtube_media a w = (Returns r, tr, w') ->
  exists u w0,
    os_makedirs E (output_dir a) w = (Returns u, w0) /\
    r = results (for_formats a (requested a) (initial_state a w0)) /\
    tr = calls (for_formats a (requested a) (initial_state a w0)) /\
    w' = env (for_formats a (requested a) (initial_state a w0)).
Proof.
  unfold download_youtube_media.
  destruct (os_makedirs E (output_dir a) w) as [[u|msg] w0]; [|done].
  intros [= <- <- <-]. by eexists _, _.
Qed.

(** X10.  One call with the list [l1 ++ l2] does what two calls do, the
    first with [l1] and the second with [l2] in the world the first one
    left, provided [os.makedirs] leaves that world as it is (the directory
    exists by then): the same calls into yt_dlp, the same final world, and
    the downloads and errors of the first call followed by those of the
    second. *)
Theorem one_call_is_two_calls (a : args) (l1 l2 : list string)
    (w w1 w2 : world E) (r1 r2 : results_dict E) (tr1 tr2 : list call) u :
  download_youtube_media (with_formats a l1) w = (Returns r1, tr1, w1) ->
  os_makedirs E (output_dir a) w1 = (Returns u, w1) ->
  download_youtube_media (with_formats a l2) w1 = (Returns r2, tr2, w2) ->
  download_youtube_media (with_formats a (l1 ++ l2)) w
  = (Returns {| res_url := url a;
                res_formats_requested := l1 ++ l2;
                res_downloads := res_downloads r1 ++ res_downloads r2;
                res_errors := res_errors r1 ++ res_errors r2 |},
     tr1 ++ tr2, w2).
Proof.
  intros H1 Hmk H2.
  apply download_youtube_media_inv in H1 as (u1 & w0 & Hmk1 & -> & -> & ->).
  apply download_youtube_media_inv in H2 as (u2 & w0' & Hmk2 & -> & -> & ->).
  change (output_dir (with_formats a l1)) with (output_dir a) in Hmk1.
  change (output_dir (with_formats a l2)) with (output_dir a) in Hmk2.
  change (requested (with_formats a l1)) with l1 in *.
  change (requested (with_formats a l2)) with l2 in *.
  rewrite Hmk in Hmk2. injection Hmk2 as _ <-.
  rewrite (download_youtube_media_returns (with_formats a (l1 ++ l2)) w w0 u1)
    by exact Hmk1.
  change (requested (with_formats a (l1 ++ l2))) with (l1 ++ l2).
  rewrite !for_formats_with_formats in *.
  rewrite for_formats_app.
  rewrite (for_formats_rebase a l1
             (initial_state (with_formats a (l1 ++ l2)) w0)
             (initial_state (with_formats a l1) w0)) by reflexivity.
  set (s1 := for_formats a l1 (initial_state (with_formats a l1) w0)) in *.
  rewrite (for_formats_rebase a l2 _
             (initial_state (with_formats a l2) (env s1))) by reflexivity.
  reflexivity.
Qed.

(** X11.  A call that returns without any error has delivered every
    requested format: the formats of its ['downloads'] are the requested
    list itself, in order. *)
Theorem no_error_means_all_delivered (a : args) (w w' : world E)
    (r : results_dict E) (tr : list call) :
  download_youtube_media a w = (Returns r, tr, w') ->
  res_errors r = [] ->
  map dl_format (res_downloads r) = requested a.
Proof.
  intros H Herr.
  apply download_youtube_media_inv in H as (u & w0 & _ & -> & _ & _).
  by apply for_formats_no_error.
Qed.

End LoopFacts.

(** ** The command line *)

Lemma accepted_formats (ns : namespace) :
  accepted ns = true ->
  ns_formats ns <> [] /\
  Forall (fun fmt => fmt ∈ supported_formats) (ns_formats ns).
Proof.
  unfold accepted. intros H.
  apply andb_true_iff in H as [H _]. apply andb_true_iff in H as [Hne Hall].
  split; [by destruct (ns_formats ns)|].
  apply Forall_forall. intros fmt Hin.
  rewrite forallb_forall in Hall. apply str_in_elem_of, Hall.
  by apply list_elem_of_In.
Qed.

Lemma supported_requested_all (a : args) :
  Forall (fun fmt => fmt ∈ supported_formats) (requested a) ->
  supported_requested a = requested a.
Proof.
  unfold supported_requested. induction 1 as [|fmt l Hfmt _ IH]; [done|].
  by rewrite filter_cons_True, IH.
Qed.

Section MainFacts.
Context {E : External}.

(** X12.  From a namespace the parser lets through, and when both
    [os.makedirs] succeed, [main] ends in one of two ways: it returns the
    result, which then has no error and one download per requested format
    in order; or it leaves with status 1 because ['errors'] is not empty.
    It never leaves through the "No files were downloaded." branch. *)
Theorem main_completes_iff_all_delivered
    (ns : namespace) (w w1 w2 : world E) u1 u2 :
  accepted ns = true ->
  os_makedirs E (ns_output_dir ns) w = (Returns u1, w1) ->
  os_makedirs E (ns_output_dir ns) w1 = (Returns u2, w2) ->
  exists r tr w',
    download_youtube_media (args_of ns) w1 = (Returns r, tr, w') /\
    ((res_errors r = [] /\
      map dl_format (res_downloads r) = ns_formats ns /\
      main ns w = (Completed r, tr, w')) \/
     (res_errors r <> [] /\
      main ns w = (SysExit 1 ExitErrors, tr, w'))).
Proof.
  intros Hacc Hmk1 Hmk2.
  destruct (accepted_formats ns Hacc) as [Hne _].
  unfold main. rewrite Hmk1.
  rewrite (download_youtube_media_returns (args_of ns) w1 w2 u2) by exact Hmk2.
  eexists _, _, _. split; [reflexivity|].
  change (requested (args_of ns)) with (ns_formats ns).
  pose proof (for_formats_no_error (args_of ns) (ns_formats ns) w2) as Hall.
  destruct (res_errors
              (results (for_formats (args_of ns) (ns_formats ns)
                          (initial_state (args_of ns) w2)))) as [|e es];
    [|by right].
  left. specialize (Hall eq_refl). split; [done|]. split; [done|].
  destruct (res_downloads
              (results (for_formats (args_of ns) (ns_formats ns)
                          (initial_state (args_of ns) w2)))) as [|d ds];
    [|done].
  simpl in Hall. congruence.
Qed.

(** X13.  From a namespace the parser lets through, every requested format
    gets its own [YoutubeDL], built from the options of that format, in the
    order of the command line; and no error is an "Unsupported format"
    one: each is "Error downloading ..." or "File not found after
    download: ...". *)
Theorem main_every_format_is_attempted
    (ns : namespace) (w w1 w2 : world E) u1 u2 :
  accepted ns = true ->
  os_makedirs E (ns_output_dir ns) w = (Returns u1, w1) ->
  os_makedirs E (ns_output_dir ns) w1 = (Returns u2, w2) ->
  exists r tr w',
    download_youtube_media (args_of ns) w1 = (Returns r, tr, w') /\
    snd (fst (main ns w)) = tr /\
    Forall2 (fun fmt o =>
               exists cfg, dict_get format_configs fmt = Some cfg /\
                           o = ydl_opts_of (args_of ns) fmt cfg)
            (ns_formats ns) (handed_opts tr) /\
    Forall (fun e =>
              (exists fmt msg,
                  e = "Error downloading " +:+ fmt +:+ ": " +:+ msg) \/
              (exists path, e = "File not found after download: " +:+ path))
           (res_errors r).
Proof.
  intros Hacc Hmk1 Hmk2.
  destruct (accepted_formats ns Hacc) as [_ Hall].
  destruct (handed_opts_of_run (args_of ns) w1 w2 u2 Hmk2) as (tr & Htr & Hh).
  rewrite supported_requested_all in Hh by exact Hall.
  unfold main. rewrite Hmk1.
  rewrite (download_youtube_media_returns (args_of ns) w1 w2 u2) in *
    by exact Hmk2.
  simpl in Htr. subst tr.
  eexists _, _, _. split; [reflexivity|].
  split; [by repeat case_match|]. split; [exact Hh|].
  by apply for_formats_supported_errors.
Qed.

(** X14.  Whatever the namespace, when both [os.makedirs] succeed, [main]
    leaves through the "No files were downloaded." branch exactly when the
    list of formats is empty, which [nargs='+'] rules out. *)
Theorem main_nothing_downloaded_iff_no_format
    (ns : namespace) (w w1 w2 : world E) u1 u2 :
  os_makedirs E (ns_output_dir ns) w = (Returns u1, w1) ->
  os_makedirs E (ns_output_dir ns) w1 = (Returns u2, w2) ->
  fst (fst (main ns w)) = SysExit 1 ExitNothingDownloaded
  <-> ns_formats ns = [].
Proof.
  intros Hmk1 Hmk2. unfold main. rewrite Hmk1.
  rewrite (download_youtube_media_returns (args_of ns) w1 w2 u2) by exact Hmk2.
  change (requested (args_of ns)) with (ns_formats ns).
  destruct (for_formats_effect (args_of ns) (ns_formats ns)
              (initial_state (args_of ns) w2))
    as (_ & _ & ds & es & _ & _ & Hd & He & _ & _ & Hl & _).
  rewrite Hd, He. simpl.
  destruct es as [|e es]; [|split; [done|]; intros H; rewrite H in Hl; simpl in Hl; lia].
  destruct ds as [|d ds]; simpl in *.
  - split; [|done]. intros _. by destruct (ns_formats ns).
  - split; [done|]. intros H. rewrite H in Hl. simpl in Hl. lia.
Qed.

End MainFacts.

(** ** The convenience functions *)

(** Without either flag no embedding step is configured. *)
Lemma no_flag_no_step (a : args) (fmt : string) (cfg : config) :
  dict_get format_configs fmt = Some cfg ->
  include_thumbnail a = false ->
  include_metadata a = false ->
  opt_writethumbnail (ydl_opts_of a fmt cfg) = None /\
  has_step "EmbedThumbnail" (ydl_opts_of a fmt cfg) = false /\
  has_step "FFmpegMetadata" (ydl_opts_of a fmt cfg) = false.
Proof.
  intros Hcfg. apply dict_get_elem_of in Hcfg. unfold format_configs in Hcfg.
  destruct a as [u f thumb meta dir q keep qt]. simpl. intros -> ->.
  unfold ydl_opts_of, ydl_opts, postprocessors, has_step, steps,
    embeds_thumbnail.
  elem_cases Hcfg; injection Hcfg as -> ->; done.
Qed.

Section ConvenienceFacts.
Context {E : External}.

(** A call for one supported format: one option dictionary handed over, one
    entry in all, and the downloads are entries of that format. *)
Lemma single_format_run a fmt cfg (w w0 : world E) u :
  requested a = [fmt] ->
  dict_get format_configs fmt = Some cfg ->
  os_makedirs E (output_dir a) w = (Returns u, w0) ->
  exists r tr w',
    download_youtube_media a w = (Returns r, tr, w') /\
    res_formats_requested r = [fmt] /\
    handed_opts tr = [ydl_opts_of a fmt cfg] /\
    length (res_downloads r) + length (res_errors r) = 1 /\
    Forall (entry_for a fmt) (res_downloads r).
Proof.
  intros Hreq Hcfg Hmk.
  destruct (handed_opts_of_run a w w0 u Hmk) as (tr & Htr & Hh).
  assert (Hs : fmt ∈ supported_formats) by (apply dict_get_supported; eauto).
  unfold supported_requested in Hh. rewrite Hreq in Hh.
  rewrite filter_cons_True in Hh by done. rewrite filter_nil in Hh.
  apply Forall2_cons_inv_l in Hh as (o & os & (cfg' & Hcfg' & ->) & Hos & Hh).
  apply Forall2_nil_inv_l in Hos as ->.
  rewrite Hcfg in Hcfg'. injection Hcfg' as <-.
  rewrite (download_youtube_media_returns _ _ _ _ Hmk) in *.
  simpl in Htr. subst tr. rewrite Hreq in *.
  change (for_formats a [fmt] (initial_state a w0))
    with (process_format a fmt (initial_state a w0)) in *.
  destruct (process_format_effect a fmt (initial_state a w0))
    as (seg & ds & es & _ & Hf & Hd & He & _ & _ & Hl & Hent).
  eexists _, _, _. split; [reflexivity|].
  rewrite Hf, Hd, He, Hh. simpl. by rewrite Hreq.
Qed.

(** X15.  [download_as_mp3] hands yt_dlp one option dictionary: best audio,
    extraction to mp3 at the given quality (192 when left out) first, then
    thumbnail and metadata embedding unless switched off (both are on when
    left out).  It returns one entry in all, and the two flags of a download
    say exactly which embedding steps were configured. *)
Theorem download_as_mp3_reports_its_steps
    (url_ : string) (include_thumbnail_ include_metadata_ : option bool)
    (quality_ output_dir_ : option string) (w w0 : world E) u :
  os_makedirs E (default "downloads" output_dir_) w = (Returns u, w0) ->
  exists r tr w' o,
    download_as_mp3 url_ include_thumbnail_ include_metadata_
                    quality_ output_dir_ w = (Returns r, tr, w') /\
    handed_opts tr = [o] /\
    opt_format o = "bestaudio/best" /\
    head (steps o)
    = Some {| pp_key := "FFmpegExtractAudio";
              pp_preferredcodec := Some "mp3";
              pp_preferredquality := Some (default "192" quality_) |} /\
    has_step "EmbedThumbnail" o = default true include_thumbnail_ /\
    has_step "FFmpegMetadata" o = default true include_metadata_ /\
    length (res_downloads r) + length (res_errors r) = 1 /\
    Forall (fun d =>
              dl_format d = "mp3" /\
              dl_with_thumbnail d = has_step "EmbedThumbnail" o /\
              dl_with_metadata d = has_step "FFmpegMetadata" o)
           (res_downloads r).
Proof.
  intros Hmk. unfold download_as_mp3.
  edestruct (single_format_run
               {| url := url_; formats := Some ["mp3"];
                  include_thumbnail := default true include_thumbnail_;
                  include_metadata := default true include_metadata_;
                  output_dir := default "downloads" output_dir_;
                  quality := default "192" quality_;
                  keep_original := false; quiet := false |}
               "mp3" _ w w0 u eq_refl eq_refl Hmk)
    as (r & tr & w' & Hrun & _ & Hh & Hl & Hent).
  exists r, tr, w'. eexists. split; [exact Hrun|]. split; [exact Hh|].
  destruct (default true include_thumbnail_), (default true include_metadata_);
    (split_and!; try done;
     eapply Forall_impl; [exact Hent|]; by intros d (b & n & ->)).
Qed.

(** X16.  [download_as_mp4] hands yt_dlp one option dictionary: the best
    mp4 stream, no post-processing step and no thumbnail, quiet unless
    switched off.  It returns one entry in all, and a download has both
    flags unset. *)
Theorem download_as_mp4_embeds_nothing
    (url_ : string) (output_dir_ : option string) (quiet_ : option bool)
    (w w0 : world E) u :
  os_makedirs E (default "downloads" output_dir_) w = (Returns u, w0) ->
  exists r tr w' o,
    download_as_mp4 url_ output_dir_ quiet_ w = (Returns r, tr, w') /\
    handed_opts tr = [o] /\
    opt_format o = "best[ext=mp4]/best" /\
    opt_postprocessors o = None /\
    opt_writethumbnail o = None /\
    opt_quiet o = default true quiet_ /\
    opt_no_warnings o = default true quiet_ /\
    length (res_downloads r) + length (res_errors r) = 1 /\
    Forall (fun d =>
              dl_format d = "mp4" /\
              dl_with_thumbnail d = false /\
              dl_with_metadata d = false)
           (res_downloads r).
Proof.
  intros Hmk. unfold download_as_mp4.
  edestruct (single_format_run
               {| url := url_; formats := Some ["mp4"];
                  include_thumbnail := false; include_metadata := false;
                  output_dir := default "downloads" output_dir_;
                  quality := "192";
                  keep_original := false;
                  quiet := default true quiet_ |}
               "mp4" _ w w0 u eq_refl eq_refl Hmk)
    as (r & tr & w' & Hrun & _ & Hh & Hl & Hent).
  exists r, tr, w'. eexists. split; [exact Hrun|]. split; [exact Hh|].
  split_and!; try done.
  eapply Forall_impl; [exact Hent|]. by intros d (b & n & ->).
Qed.

(** X17.  [download_multiple_formats] called without the keywords
    [include_thumbnail] and [include_metadata] never configures an embedding
    step, for any list of formats, and every download has both flags
    unset. *)
Theorem download_multiple_formats_plain
    (url_ : string) (formats_ : list string) (output_dir_ : option string)
    (kw : kwargs) (w w0 : world E) u :
  kw_include_thumbnail kw = None ->
  kw_include_metadata kw = None ->
  os_makedirs E (default "downloads" output_dir_) w = (Returns u, w0) ->
  exists r tr w',
    download_multiple_formats url_ formats_ output_dir_ kw w
    = (Returns r, tr, w') /\
    res_formats_requested r = formats_ /\
    Forall (fun o =>
              opt_writethumbnail o = None /\
              has_step "EmbedThumbnail" o = false /\
              has_step "FFmpegMetadata" o = false)
           (handed_opts tr) /\
    Forall (fun d => dl_with_thumbnail d = false /\ dl_with_metadata d = false)
           (res_downloads r).
Proof.
  intros Ht Hm Hmk. unfold download_multiple_formats. rewrite Ht, Hm. simpl.
  set (a := {| url := url_; formats := Some formats_;
               include_thumbnail := false; include_metadata := false;
               output_dir := default "downloads" output_dir_;
               quality := default "192" (kw_quality kw);
               keep_original := default false (kw_keep_original kw);
               quiet := default false (kw_quiet kw) |}).
  destruct (handed_opts_of_run a w w0 u Hmk) as (tr & Htr & Hh).
  rewrite (download_youtube_media_returns a w w0 u Hmk) in *.
  simpl in Htr. subst tr.
  destruct (for_formats_effect a (requested a) (initial_state a w0))
    as (_ & fs & ds & es & _ & Hf & Hd & _ & _ & _ & _ & _ & Hent).
  eexists _, _, _. split; [reflexivity|]. rewrite Hf, Hd. simpl.
  split; [done|]. split.
  - clear -Hh. induction Hh as [|fmt o l os (cfg & Hcfg & ->) _ IH];
      constructor; [|done].
    by apply no_flag_no_step.
  - clear -Hent. induction Hent as [|f d fs ds (b & n & ->) _ IH];
      constructor; [|done].
    subst a. unfold success_entry. cbn [dl_with_thumbnail dl_with_metadata
      include_thumbnail include_metadata].
    by destruct (str_in f thumbnail_formats).
Qed.

End ConvenienceFacts.

(** ** The further theorems at concrete inputs *)

(** A membership or its negation in a literal list, by evaluation. *)
Ltac by_evaluation := apply (bool_decide_unpack _); vm_compute; exact I.

Lemma final_filename_replaces_extension_witness :
  has_dot "webm" = false /\
  final_filename ("downloads/A.B_mp3" +:+ "." +:+ "webm") "mp3"
  = "downloads/A.B_mp3" +:+ "." +:+ "mp3".
Proof.
  split; [reflexivity|].
  apply (final_filename_replaces_extension "downloads/A.B_mp3" "webm" "mp3").
  reflexivity.
Defined.

Lemma final_filename_without_dot_witness :
  has_dot "downloads/clip" = false /\
  final_filename "downloads/clip" "wav" = "downloads/clip" +:+ "." +:+ "wav".
Proof.
  split; [reflexivity|].
  apply (final_filename_without_dot "downloads/clip" "wav"). reflexivity.
Defined.

Lemma final_filename_idempotent_witness :
  has_dot "flac" = false /\
  final_filename (final_filename "a.b.webm" "flac") "flac"
  = final_filename "a.b.webm" "flac".
Proof.
  split; [reflexivity|].
  apply (final_filename_idempotent "a.b.webm" "flac"). reflexivity.
Defined.

Lemma path_join_trailing_slash_witness :
  path_join ("downloads" +:+ "/") "%(title)s_mp3.%(ext)s"
  = path_join "downloads" "%(title)s_mp3.%(ext)s".
Proof.
  apply (path_join_trailing_slash "downloads" "%(title)s_mp3.%(ext)s");
    [discriminate | reflexivity].
Defined.

Lemma outtmpl_determines_format_witness :
  opt_outtmpl (ydl_opts_of Sample.a "flac" SampleCalls.flac_config)
  = opt_outtmpl (ydl_opts_of Sample.a "flac" Sample.mp3_config) /\
  "flac" = "flac".
Proof.
  split; [reflexivity|].
  apply (outtmpl_determines_format Sample.a "flac" "flac"
           SampleCalls.flac_config Sample.mp3_config).
  reflexivity.
Defined.

Lemma steps_in_fixed_order_witness :
  map pp_key (steps (ydl_opts_of Sample.a "flac" SampleCalls.flac_config))
    `sublist_of` ["FFmpegExtractAudio"; "EmbedThumbnail"; "FFmpegMetadata"] /\
  match steps (ydl_opts_of Sample.a "flac" SampleCalls.flac_config) with
  | [] => True
  | p :: _ => pp_key p = "FFmpegExtractAudio"
  end.
Proof.
  apply (steps_in_fixed_order Sample.a "flac" SampleCalls.flac_config).
  reflexivity.
Defined.

Lemma writethumbnail_iff_step_witness :
  opt_writethumbnail (ydl_opts_of Sample.a "m4a" SampleCalls.m4a_config)
  = if has_step "EmbedThumbnail"
         (ydl_opts_of Sample.a "m4a" SampleCalls.m4a_config)
    then Some true else None.
Proof.
  apply (writethumbnail_iff_step Sample.a "m4a" SampleCalls.m4a_config).
  reflexivity.
Defined.

Lemma steps_exactly_when_witness :
  (has_step "EmbedThumbnail" (ydl_opts_of Sample.a "m4a" SampleCalls.m4a_config)
   = true
   <-> include_thumbnail Sample.a = true /\ "m4a" ∈ ["mp3"; "flac"]) /\
  (has_step "FFmpegMetadata" (ydl_opts_of Sample.a "m4a" SampleCalls.m4a_config)
   = true
   <-> include_metadata Sample.a = true /\
       "m4a" ∈ ["mp3"; "flac"; "wav"; "ogg"]).
Proof.
  apply (steps_exactly_when Sample.a "m4a" SampleCalls.m4a_config).
  reflexivity.
Defined.

Lemma flags_agree_iff_witness :
  (dl_with_thumbnail
     (success_entry (E := Demo.library) Sample.a "m4a" "x.m4a" 1)
   = has_step "EmbedThumbnail" (ydl_opts_of Sample.a "m4a" SampleCalls.m4a_config)
   <-> "m4a" <> "m4a" \/ include_thumbnail Sample.a = false) /\
  (dl_with_metadata
     (success_entry (E := Demo.library) Sample.a "m4a" "x.m4a" 1)
   = has_step "FFmpegMetadata" (ydl_opts_of Sample.a "m4a" SampleCalls.m4a_config)
   <-> "m4a" ∈ audio_formats \/ include_metadata Sample.a = false).
Proof.
  apply (flags_agree_iff (E := Demo.library) Sample.a "m4a" "x.m4a" 1
           SampleCalls.m4a_config).
  reflexivity.
Defined.

Lemma succeeds_or_fails_witness :
  (exists e,
      fails Sample.a_unresolved "mp3"
        (ydl_opts_of Sample.a_unresolved "mp3" Sample.mp3_config)
        (env Sample.s0_unresolved) e) \/
  (exists d,
      entry_for Sample.a_unresolved "mp3" d /\
      res_downloads (results (process_format Sample.a_unresolved "mp3"
                                Sample.s0_unresolved))
      = res_downloads (results Sample.s0_unresolved) ++ [d] /\
      res_errors (results (process_format Sample.a_unresolved "mp3"
                             Sample.s0_unresolved))
      = res_errors (results Sample.s0_unresolved)).
Proof.
  apply (succeeds_or_fails (E := Demo.library) Sample.a_unresolved "mp3"
           Sample.mp3_config Sample.s0_unresolved).
  reflexivity.
Defined.

Lemma download_called_iff_info_witness :
  exists seg,
    calls (process_format Sample.a_unresolved "mp3" Sample.s0_unresolved)
    = calls Sample.s0_unresolved ++ seg /\
    count_calls is_download seg = 0.
Proof.
  apply (download_called_iff_info (E := Demo.library) Sample.a_unresolved
           "mp3" Sample.mp3_config Sample.s0_unresolved).
  reflexivity.
Defined.

Lemma results_follow_the_formats_witness :
  exists r tr w' os,
    download_youtube_media (E := Demo.library) Sample.a [] = (Returns r, tr, w') /\
    Forall2 (outcome_for Sample.a) (requested Sample.a) os /\
    res_downloads r = entries_of os /\
    res_errors r = errors_of os.
Proof.
  apply (results_follow_the_formats (E := Demo.library) Sample.a [] [] tt).
  reflexivity.
Defined.

Lemma only_unsupported_formats_witness :
  download_youtube_media (E := Demo.library) SampleCalls.a_foreign []
  = (Returns (ResultsDict (E := Demo.library) "v" ["avi"; "MP3"] []
                ["Unsupported format: avi"; "Unsupported format: MP3"]),
     [], []).
Proof.
  apply (only_unsupported_formats (E := Demo.library)
           SampleCalls.a_foreign [] [] tt).
  - reflexivity.
  - repeat constructor; by_evaluation.
Defined.

Lemma one_call_is_two_calls_witness :
  exists r1 tr1 w1 r2 tr2 w2,
    download_youtube_media (E := Demo.library)
      (with_formats Sample.a ["mp3"]) [] = (Returns r1, tr1, w1) /\
    os_makedirs Demo.library (output_dir Sample.a) w1 = (Returns tt, w1) /\
    download_youtube_media (E := Demo.library)
      (with_formats Sample.a ["avi"; "mp4"]) w1 = (Returns r2, tr2, w2) /\
    download_youtube_media (E := Demo.library)
      (with_formats Sample.a (["mp3"] ++ ["avi"; "mp4"])) []
    = (Returns {| res_url := url Sample.a;
                  res_formats_requested := ["mp3"] ++ ["avi"; "mp4"];
                  res_downloads := res_downloads r1 ++ res_downloads r2;
                  res_errors := res_errors r1 ++ res_errors r2 |},
       tr1 ++ tr2, w2).
Proof.
  eexists _, _, _, _, _, _.
  split; [reflexivity|]. split; [reflexivity|]. split; [reflexivity|].
  eapply (one_call_is_two_calls (E := Demo.library) Sample.a
            ["mp3"] ["avi"; "mp4"] []);
    reflexivity.
Defined.

Lemma no_error_means_all_delivered_witness :
  exists r tr w',
    download_youtube_media (E := Demo.library)
      (Demo.arguments "v" ["mp3"; "mp4"; "mp3"] false false) []
    = (Returns r, tr, w') /\
    res_errors r = [] /\
    map dl_format (res_downloads r) = ["mp3"; "mp4"; "mp3"].
Proof.
  eexists _, _, _.
  split; [reflexivity|]. split; [reflexivity|].
  eapply (no_error_means_all_delivered (E := Demo.library)
            (Demo.arguments "v" ["mp3"; "mp4"; "mp3"] false false) []);
    reflexivity.
Defined.

Lemma main_completes_iff_all_delivered_witness :
  accepted SampleCalls.ns = true /\
  exists r tr w',
    download_youtube_media (E := Demo.library) (args_of SampleCalls.ns) []
    = (Returns r, tr, w') /\
    ((res_errors r = [] /\
      map dl_format (res_downloads r) = ns_formats SampleCalls.ns /\
      main (E := Demo.library) SampleCalls.ns [] = (Completed r, tr, w')) \/
     (res_errors r <> [] /\
      main (E := Demo.library) SampleCalls.ns []
      = (SysExit 1 ExitErrors, tr, w'))).
Proof.
  split; [reflexivity|].
  apply (main_completes_iff_all_delivered (E := Demo.library)
           SampleCalls.ns [] [] [] tt tt);
    reflexivity.
Defined.

Lemma main_every_format_is_attempted_witness :
  accepted SampleCalls.ns_unresolved = true /\
  exists r tr w',
    download_youtube_media (E := Demo.library)
      (args_of SampleCalls.ns_unresolved) [] = (Returns r, tr, w') /\
    snd (fst (main (E := Demo.library) SampleCalls.ns_unresolved [])) = tr /\
    Forall2 (fun fmt o =>
               exists cfg, dict_get format_configs fmt = Some cfg /\
                           o = ydl_opts_of (args_of SampleCalls.ns_unresolved)
                                 fmt cfg)
            (ns_formats SampleCalls.ns_unresolved) (handed_opts tr) /\
    Forall (fun e =>
              (exists fmt msg,
                  e = "Error downloading " +:+ fmt +:+ ": " +:+ msg) \/
              (exists path, e = "File not found after download: " +:+ path))
           (res_errors r).
Proof.
  split; [reflexivity|].
  apply (main_every_format_is_attempted (E := Demo.library)
           SampleCalls.ns_unresolved [] [] [] tt tt);
    reflexivity.
Defined.

Lemma main_nothing_downloaded_iff_no_format_witness :
  fst (fst (main (E := Demo.library) SampleCalls.ns []))
  = SysExit 1 ExitNothingDownloaded
  <-> ns_formats SampleCalls.ns = [].
Proof.
  apply (main_nothing_downloaded_iff_no_format (E := Demo.library)
           SampleCalls.ns [] [] [] tt tt);
    reflexivity.
Defined.

Lemma download_as_mp3_reports_its_steps_witness :
  exists r tr w' o,
    download_as_mp3 (E := Demo.library) "v" None (Some false) (Some "320") None []
    = (Returns r, tr, w') /\
    handed_opts tr = [o] /\
    opt_format o = "bestaudio/best" /\
    head (steps o)
    = Some {| pp_key := "FFmpegExtractAudio";
              pp_preferredcodec := Some "mp3";
              pp_preferredquality := Some "320" |} /\
    has_step "EmbedThumbnail" o = true /\
    has_step "FFmpegMetadata" o = false /\
    length (res_downloads r) + length (res_errors r) = 1 /\
    Forall (fun d =>
              dl_format d = "mp3" /\
              dl_with_thumbnail d = has_step "EmbedThumbnail" o /\
              dl_with_metadata d = has_step "FFmpegMetadata" o)
           (res_downloads r).
Proof.
  apply (download_as_mp3_reports_its_steps (E := Demo.library)
           "v" None (Some false) (Some "320") None [] [] tt).
  reflexivity.
Defined.

Lemma download_as_mp4_embeds_nothing_witness :
  exists r tr w' o,
    download_as_mp4 (E := Demo.library) "v" (Some "video") None []
    = (Returns r, tr, w') /\
    handed_opts tr = [o] /\
    opt_format o = "best[ext=mp4]/best" /\
    opt_postprocessors o = None /\
    opt_writethumbnail o = None /\
    opt_quiet o = true /\
    opt_no_warnings o = true /\
    length (res_downloads r) + length (res_errors r) = 1 /\
    Forall (fun d =>
              dl_format d = "mp4" /\
              dl_with_thumbnail d = false /\
              dl_with_metadata d = false)
           (res_downloads r).
Proof.
  apply (download_as_mp4_embeds_nothing (E := Demo.library)
           "v" (Some "video") None [] [] tt).
  reflexivity.
Defined.

Lemma download_multiple_formats_plain_witness :
  exists r tr w',
    download_multiple_formats (E := Demo.library) "v" ["mp3"; "m4a"; "avi"]
      None SampleCalls.no_keywords []
    = (Returns r, tr, w') /\
    res_formats_requested r = ["mp3"; "m4a"; "avi"] /\
    Forall (fun o =>
              opt_writethumbnail o = None /\
              has_step "EmbedThumbnail" o = false /\
              has_step "FFmpegMetadata" o = false)
           (handed_opts tr) /\
    Forall (fun d => dl_with_thumbnail d = false /\ dl_with_metadata d = false)
           (res_downloads r).
Proof.
  apply (download_multiple_formats_plain (E := Demo.library)
           "v" ["mp3"; "m4a"; "avi"] None SampleCalls.no_keywords [] [] tt);
    reflexivity.
Defined.
